(** * vmess_to_clash: decoding a vmess link and mapping it to a Clash document

    A shallow embedding of [src/vmess_to_clash.py]:
    - [decode_vmess]           (lines 9-29)
    - [generate_clash_config]  (lines 31-107)
    - [vmess_to_clash]         (lines 109-132, without the file output)

    together with executable models of the library functions they call
    ([base64.b64decode], [bytes.decode('utf-8')], [json.loads], [dict.get],
    [int], [str.lower]) and the properties of the specification stated
    over them.

    Conventions.  A Python [str] is represented by the UTF-8 encoding of its
    code points, held in a [string]; a Python [bytes] is a [list byte].
    Exceptions are values of [exception], and a computation that may raise
    is a [result]. *)

From Stdlib Require Import ZArith NArith List String Ascii Bool Lia.
From Stdlib Require Import Strings.Byte.
From Stdlib Require Import Floats.SpecFloat.
From Stdlib Require Decimal DecimalString DecimalPos DecimalZ.
Import ListNotations.

Set Warnings "-register-all".

Local Open Scope string_scope.
Local Open Scope list_scope.

(* ================================================================= *)
(** ** Exceptions and the error monad *)

(** The exceptions that the two functions and their library calls raise.
    A [ValueError] carries its message; the two messages built by
    [decode_vmess] are [msg_scheme] (line 20) and [msg_parse e]
    (line 29, the f-string that embeds the caught exception [e]). *)
Inductive exception : Type :=
| ValueError (m : message)
| BinasciiError        (* binascii.Error: bad length or padding *)
| UnicodeDecodeError
| JSONDecodeError
| AttributeError
| TypeError
| OverflowError
| KeyError
| IndexError
with message : Type :=
| msg_scheme                    (* "链接必须以 vmess:// 开头" *)
| msg_parse (e : exception)     (* f"无法解析 vmess 链接: {e}" *)
| msg_ascii                     (* "string argument should contain only ASCII characters" *)
| msg_int_literal               (* "invalid literal for int() with base 10" *)
| msg_int_nan.                  (* "cannot convert float NaN to integer" *)

Inductive result (A : Type) : Type :=
| Ok (a : A)
| Raise (e : exception).

Arguments Ok {A} a.
Arguments Raise {A} e.

Definition bind {A B : Type} (r : result A) (k : A -> result B) : result B :=
  match r with
  | Ok a => k a
  | Raise e => Raise e
  end.

Notation "x <- r ;; k" := (bind r (fun x => k))
  (at level 61, r at next level, right associativity).

Definition succeeds {A : Type} (r : result A) : Prop := exists a, r = Ok a.

(** The two failure kinds the specification names for the decoder. *)
Definition InvalidSchemeError (e : exception) : Prop :=
  e = ValueError msg_scheme.

Definition DecodeError (e : exception) : Prop :=
  exists cause, e = ValueError (msg_parse cause).

(* ================================================================= *)
(** ** Python values *)

Module Py.

(** The values [json.loads] produces and [generate_clash_config] builds.
    A [dict] keeps its keys in insertion order; all keys here are [str]. *)
Inductive value : Type :=
| VNone
| VBool (b : bool)
| VInt (z : Z)
| VFloat (f : spec_float)
| VStr (s : string)
| VList (l : list value)
| VDict (d : list (string * value)).

Definition dict : Type := list (string * value).

(** [d[k]] when the key is present. *)
Fixpoint dict_lookup {A : Type} (k : string) (d : list (string * A)) : option A :=
  match d with
  | [] => None
  | (k', v) :: t => if String.eqb k' k then Some v else dict_lookup k t
  end.

(** [d[k] = v]: an existing key keeps its position, a new key goes last. *)
Fixpoint dict_set {A : Type} (k : string) (v : A) (d : list (string * A))
  : list (string * A) :=
  match d with
  | [] => [(k, v)]
  | (k', v') :: t =>
      if String.eqb k' k then (k', v) :: t else (k', v') :: dict_set k v t
  end.

(** [o.get(k, default)]; only a dict has the method. *)
Definition get (o : value) (k : string) (default : value) : result value :=
  match o with
  | VDict d =>
      Ok (match dict_lookup k d with Some v => v | None => default end)
  | _ => Raise AttributeError
  end.

(** Truth value of an object, as tested by [or]. *)
Definition truthy (v : value) : bool :=
  match v with
  | VNone => false
  | VBool b => b
  | VInt z => negb (Z.eqb z 0)
  | VFloat (S754_zero _) => false
  | VFloat _ => true
  | VStr s => negb (String.eqb s EmptyString)
  | VList l => match l with [] => false | _ => true end
  | VDict d => match d with [] => false | _ => true end
  end.

(** [v == s] for a [str] literal [s]: only an equal [str] compares equal. *)
Definition eq_str (v : value) (s : string) : bool :=
  match v with
  | VStr t => String.eqb t s
  | _ => false
  end.

(** [str.lower].  Exact on ASCII; bytes of non-ASCII code points are left
    as they are.  No non-ASCII code point has a lower-case form that
    contains one of the letters z, e, r, o (the only ones with an ASCII
    letter in their image are U+212A and U+0130, with k and i), so the
    comparison of the result with ["zero"] is decided as in Python. *)
Definition lower_char (c : ascii) : ascii :=
  let n := nat_of_ascii c in
  if (65 <=? n)%nat && (n <=? 90)%nat then ascii_of_nat (n + 32) else c.

Fixpoint str_lower (s : string) : string :=
  match s with
  | EmptyString => EmptyString
  | String c t => String (lower_char c) (str_lower t)
  end.

Definition lower (v : value) : result string :=
  match v with
  | VStr s => Ok (str_lower s)
  | _ => Raise AttributeError
  end.

(** *** [int(x)] *)

Definition is_space (c : ascii) : bool :=
  let n := nat_of_ascii c in
  (n =? 32)%nat || ((9 <=? n)%nat && (n <=? 13)%nat).

Definition is_digit (c : ascii) : bool :=
  let n := nat_of_ascii c in (48 <=? n)%nat && (n <=? 57)%nat.

Definition digit_val (c : ascii) : Z := Z.of_nat (nat_of_ascii c) - 48.

Fixpoint lstrip (l : list ascii) : list ascii :=
  match l with
  | c :: t => if is_space c then lstrip t else l
  | [] => []
  end.

Fixpoint rstrip (l : list ascii) : list ascii :=
  match l with
  | [] => []
  | c :: t =>
      match rstrip t with
      | [] => if is_space c then [] else [c]
      | t' => c :: t'
      end
  end.

(** Digits, with single underscores allowed between two digits.
    [prev] tells whether the previous character was a digit. *)
Fixpoint int_digits (acc : Z) (prev : bool) (l : list ascii) : option Z :=
  match l with
  | [] => if prev then Some acc else None
  | c :: t =>
      if is_digit c then int_digits (10 * acc + digit_val c) true t
      else if Ascii.eqb c "_"%char then
        (if prev then int_digits acc false t else None)
      else None
  end.

(** [int(s)] for a [str]: surrounding whitespace, an optional sign, decimal
    digits.  The ASCII part of Python's grammar (Python also accepts
    non-ASCII decimal digits and spaces). *)
Definition int_of_str (s : string) : option Z :=
  match rstrip (lstrip (list_ascii_of_string s)) with
  | c :: t =>
      if Ascii.eqb c "-"%char then option_map Z.opp (int_digits 0 false t)
      else if Ascii.eqb c "+"%char then int_digits 0 false t
      else int_digits 0 false (c :: t)
  | [] => None
  end.

(** [int(f)] for a float: truncation toward zero. *)
Definition int_of_float (f : spec_float) : result Z :=
  match f with
  | S754_zero _ => Ok 0%Z
  | S754_nan => Raise (ValueError msg_int_nan)
  | S754_infinity _ => Raise OverflowError
  | S754_finite s m e => Ok (cond_Zopp s (Z.shiftl (Zpos m) e))
  end.

Definition int (v : value) : result Z :=
  match v with
  | VInt z => Ok z
  | VBool b => Ok (if b then 1 else 0)%Z
  | VFloat f => int_of_float f
  | VStr s =>
      match int_of_str s with
      | Some z => Ok z
      | None => Raise (ValueError msg_int_literal)
      end
  | VNone | VList _ | VDict _ => Raise TypeError
  end.

(** *** In-place updates of nested containers

    [clash_config["proxy-groups"][0]["proxies"].append(x)] walks a path of
    subscripts and appends to the list it reaches. *)
Inductive subscript : Type :=
| Key (k : string)
| Idx (i : nat).

Fixpoint list_set {A : Type} (i : nat) (x : A) (l : list A) : list A :=
  match l, i with
  | [], _ => []
  | _ :: t, O => x :: t
  | y :: t, S j => y :: list_set j x t
  end.

Fixpoint append_at (path : list subscript) (x : value) (o : value)
  : result value :=
  match path with
  | [] =>
      match o with
      | VList l => Ok (VList (l ++ [x]))
      | _ => Raise AttributeError
      end
  | Key k :: p =>
      match o with
      | VDict d =>
          match dict_lookup k d with
          | Some w => w' <- append_at p x w ;; Ok (VDict (dict_set k w' d))
          | None => Raise KeyError
          end
      | _ => Raise TypeError
      end
  | Idx i :: p =>
      match o with
      | VList l =>
          match nth_error l i with
          | Some w => w' <- append_at p x w ;; Ok (VList (list_set i w' l))
          | None => Raise IndexError
          end
      | _ => Raise TypeError
      end
  end.

End Py.
Import Py.

(* ================================================================= *)
(** ** [base64]: the standard alphabet, [b64encode] and [b64decode] *)

Module Base64.

Definition byte_of_N (n : N) : byte :=
  match Byte.of_N (n mod 256) with
  | Some b => b
  | None => x00
  end.

Definition BASE64_PAD : byte := "="%byte.

Definition table_b2a_base64 : list byte :=
  list_byte_of_string
    "ABCDEFGHIJKLMNOPQRSTUVWXYZabcdefghijklmnopqrstuvwxyz0123456789+/".

(** The character of a 6-bit group. *)
Definition b2a (n : N) : byte := nth (N.to_nat n) table_b2a_base64 BASE64_PAD.

Fixpoint index_of (c : byte) (l : list byte) (i : N) : option N :=
  match l with
  | [] => None
  | x :: t => if Byte.eqb x c then Some i else index_of c t (N.succ i)
  end.

(** The 6-bit group of a character; [None] for a character outside the
    alphabet (the entries of [table_a2b_base64] that are not below 64). *)
Definition a2b (c : byte) : option N := index_of c table_b2a_base64 0.

(** The four 6-bit groups of three bytes [a], [b], [c]. *)
Definition g0 (a : N) : N := N.shiftr a 2.
Definition g1 (a b : N) : N := N.lor (N.shiftl (N.land a 3) 4) (N.shiftr b 4).
Definition g2 (b c : N) : N := N.lor (N.shiftl (N.land b 15) 2) (N.shiftr c 6).
Definition g3 (c : N) : N := N.land c 63.

(** [base64.b64encode]: three bytes give four characters; a last group of
    one or two bytes is completed with zero bits and padded with ['=']. *)
Fixpoint b64encode (data : list byte) : list byte :=
  match data with
  | [] => []
  | [x] =>
      let a := Byte.to_N x in
      [b2a (g0 a); b2a (g1 a 0); BASE64_PAD; BASE64_PAD]
  | [x; y] =>
      let a := Byte.to_N x in
      let b := Byte.to_N y in
      [b2a (g0 a); b2a (g1 a b); b2a (g2 b 0); BASE64_PAD]
  | x :: y :: z :: rest =>
      let a := Byte.to_N x in
      let b := Byte.to_N y in
      let c := Byte.to_N z in
      b2a (g0 a) :: b2a (g1 a b) :: b2a (g2 b c) :: b2a (g3 c)
      :: b64encode rest
  end.

(** [s.rstrip(b'=')]: the encoding with its padding removed. *)
Fixpoint strip_padding (l : list byte) : list byte :=
  match l with
  | [] => []
  | c :: t =>
      match strip_padding t with
      | [] => if Byte.eqb c BASE64_PAD then [] else [c]
      | t' => c :: t'
      end
  end.

(** The loop of [binascii.a2b_base64] in its default, non-strict mode.
    [quad_pos] is the position inside the current group of four,
    [leftchar] the bits carried over, [pads] the number of ['='] seen in a
    row once two characters of the group are in, [bin_data] the output so
    far.  Characters outside the alphabet are skipped; a complete padding
    ends the decoding ([goto done]); input that ends inside a group is an
    error. *)
Fixpoint a2b_loop (ascii_data : list byte) (quad_pos : nat) (leftchar : N)
  (pads : nat) (bin_data : list byte) : result (list byte) :=
  match ascii_data with
  | [] =>
      if (quad_pos =? 0)%nat then Ok bin_data else Raise BinasciiError
  | this_ch :: rest =>
      if Byte.eqb this_ch BASE64_PAD then
        if (2 <=? quad_pos)%nat then
          if (4 <=? quad_pos + S pads)%nat then Ok bin_data
          else a2b_loop rest quad_pos leftchar (S pads) bin_data
        else a2b_loop rest quad_pos leftchar pads bin_data
      else
        match a2b this_ch with
        | None => a2b_loop rest quad_pos leftchar pads bin_data
        | Some v =>
            match quad_pos with
            | 0%nat => a2b_loop rest 1 v 0 bin_data
            | 1%nat =>
                a2b_loop rest 2 (N.land v 15) 0
                  (bin_data ++ [byte_of_N (N.lor (N.shiftl leftchar 2) (N.shiftr v 4))])
            | 2%nat =>
                a2b_loop rest 3 (N.land v 3) 0
                  (bin_data ++ [byte_of_N (N.lor (N.shiftl leftchar 4) (N.shiftr v 2))])
            | _ =>
                a2b_loop rest 0 0 0
                  (bin_data ++ [byte_of_N (N.lor (N.shiftl leftchar 6) v)])
            end
        end
  end.

Definition a2b_base64 (data : list byte) : result (list byte) :=
  a2b_loop data 0 0 0 [].

Definition is_ascii (c : byte) : bool := (Byte.to_N c <? 128)%N.

(** [base64.b64decode(s)] for a [str] argument: the string is first
    encoded as ASCII, which fails on any other character. *)
Definition b64decode (s : string) : result (list byte) :=
  let data := list_byte_of_string s in
  if forallb is_ascii data then a2b_base64 data
  else Raise (ValueError msg_ascii).

End Base64.

(* ================================================================= *)
(** ** [bytes.decode('utf-8')] *)

Module Utf8.

Definition in_range (lo hi : N) (b : byte) : bool :=
  let n := Byte.to_N b in (lo <=? n)%N && (n <=? hi)%N.

Definition cont : byte -> bool := in_range 128 191.

(** Well-formed UTF-8 (no overlong forms, no surrogates, nothing above
    U+10FFFF), the byte sequences the strict decoder accepts. *)
Fixpoint valid (bs : list byte) : bool :=
  match bs with
  | [] => true
  | b0 :: t0 =>
      if in_range 0 127 b0 then valid t0
      else
        match t0 with
        | [] => false
        | b1 :: t1 =>
            if in_range 194 223 b0 then cont b1 && valid t1
            else
              match t1 with
              | [] => false
              | b2 :: t2 =>
                  if in_range 224 224 b0 then
                    in_range 160 191 b1 && cont b2 && valid t2
                  else if in_range 237 237 b0 then
                    in_range 128 159 b1 && cont b2 && valid t2
                  else if in_range 225 239 b0 then
                    cont b1 && cont b2 && valid t2
                  else
                    match t2 with
                    | [] => false
                    | b3 :: t3 =>
                        if in_range 240 240 b0 then
                          in_range 144 191 b1 && cont b2 && cont b3 && valid t3
                        else if in_range 241 243 b0 then
                          cont b1 && cont b2 && cont b3 && valid t3
                        else if in_range 244 244 b0 then
                          in_range 128 143 b1 && cont b2 && cont b3 && valid t3
                        else false
                    end
              end
        end
  end.

(** The decoded [str] is represented by the same bytes. *)
Definition decode (bs : list byte) : result string :=
  if valid bs then Ok (string_of_list_byte bs) else Raise UnicodeDecodeError.

End Utf8.

(* ================================================================= *)
(** ** [json.loads] *)

Module Json.

Definition quote : ascii := "034"%char.
Definition backslash : ascii := "092"%char.

(** The scanner's whitespace: space, tab, line feed, carriage return. *)
Definition is_ws (c : ascii) : bool :=
  Ascii.eqb c " "%char || Ascii.eqb c "009"%char
  || Ascii.eqb c "010"%char || Ascii.eqb c "013"%char.

Fixpoint skip_ws (s : string) : string :=
  match s with
  | String c t => if is_ws c then skip_ws t else s
  | EmptyString => s
  end.

(** The longest run of ASCII digits at the head of [s], and what follows. *)
Fixpoint span_digits (s : string) : list ascii * string :=
  match s with
  | String c t =>
      if is_digit c then let (ds, r) := span_digits t in (c :: ds, r)
      else ([], s)
  | EmptyString => ([], s)
  end.

Definition digits_value (ds : list ascii) : Z :=
  fold_left (fun acc c => 10 * acc + digit_val c)%Z ds 0%Z.

(** [float(literal)]: the binary64 nearest to [(-1)^neg * d * 10^e]
    (ties to even). *)
Definition float_of_decimal (neg : bool) (d : Z) (e : Z) : spec_float :=
  if (d =? 0)%Z then S754_zero neg
  else if (0 <=? e)%Z then
    binary_normalize 53 1024 (cond_Zopp neg (d * 10 ^ e)) 0 neg
  else
    let '(mz, ez, lz) := SFdiv_core_binary 53 1024 d 0 (10 ^ (- e)) 0 in
    binary_round_aux 53 1024 neg mz ez lz.

(** The exponent part [[eE][-+]?[0-9]+], if one starts [s]. *)
Definition match_exponent (s : string) : option (Z * string) :=
  match s with
  | String c t =>
      if Ascii.eqb c "e"%char || Ascii.eqb c "E"%char then
        let '(neg, t1) :=
          match t with
          | String sg t' =>
              if Ascii.eqb sg "-"%char then (true, t')
              else if Ascii.eqb sg "+"%char then (false, t')
              else (false, t)
          | EmptyString => (false, t)
          end in
        match span_digits t1 with
        | ([], _) => None
        | (ds, r) => Some (cond_Zopp neg (digits_value ds), r)
        end
      else None
  | EmptyString => None
  end.

(** The fraction part [\.[0-9]+], if one starts [s]. *)
Definition match_fraction (s : string) : option (list ascii * string) :=
  match s with
  | String c (String d t) =>
      if Ascii.eqb c "."%char && is_digit d then
        let (ds, r) := span_digits t in Some (d :: ds, r)
      else None
  | _ => None
  end.

(** [_match_number]: an optional minus sign, then a single 0 or a digit
    1-9 followed by digits, then an optional fraction and an optional
    exponent; an [int] without them, a [float] with one. *)
Definition match_number (s : string) : option (value * string) :=
  let '(neg, s1) :=
    match s with
    | String c t => if Ascii.eqb c "-"%char then (true, t) else (false, s)
    | EmptyString => (false, s)
    end in
  match s1 with
  | String c t =>
      let integer :=
        if Ascii.eqb c "0"%char then Some ([c], t)
        else if is_digit c then
          let (ds, r) := span_digits t in Some (c :: ds, r)
        else None in
      match integer with
      | None => None
      | Some (ids, r1) =>
          let '(frac, r2) :=
            match match_fraction r1 with
            | Some (fs, r) => (Some fs, r)
            | None => (None, r1)
            end in
          let '(exp, r3) :=
            match match_exponent r2 with
            | Some (x, r) => (Some x, r)
            | None => (None, r2)
            end in
          match frac, exp with
          | None, None => Some (VInt (cond_Zopp neg (digits_value ids)), r3)
          | _, _ =>
              let fs := match frac with Some fs => fs | None => [] end in
              let x := match exp with Some x => x | None => 0%Z end in
              Some (VFloat (float_of_decimal neg (digits_value (ids ++ fs))
                              (x - Z.of_nat (List.length fs))), r3)
          end
      end
  | EmptyString => None
  end.

(** *** Strings *)

Definition hex_val (c : ascii) : option N :=
  let n := N_of_ascii c in
  if (48 <=? n)%N && (n <=? 57)%N then Some (n - 48)%N
  else if (97 <=? n)%N && (n <=? 102)%N then Some (n - 87)%N
  else if (65 <=? n)%N && (n <=? 70)%N then Some (n - 55)%N
  else None.

(** Four hexadecimal digits. *)
Definition hex4 (s : string) : option (N * string) :=
  match s with
  | String a (String b (String c (String d t))) =>
      match hex_val a, hex_val b, hex_val c, hex_val d with
      | Some x, Some y, Some z, Some w =>
          Some (4096 * x + 256 * y + 16 * z + w, t)%N
      | _, _, _, _ => None
      end
  | _ => None
  end.

Definition chr (n : N) : ascii := ascii_of_N n.

(** The UTF-8 bytes of a code point (a lone surrogate gets the three-byte
    form, so that distinct [str] values keep distinct representations). *)
Definition utf8_encode (cp : N) : string :=
  if (cp <? 128)%N then String (chr cp) EmptyString
  else if (cp <? 2048)%N then
    String (chr (192 + cp / 64))
      (String (chr (128 + cp mod 64)) EmptyString)
  else if (cp <? 65536)%N then
    String (chr (224 + cp / 4096))
      (String (chr (128 + (cp / 64) mod 64))
         (String (chr (128 + cp mod 64)) EmptyString))
  else
    String (chr (240 + cp / 262144))
      (String (chr (128 + (cp / 4096) mod 64))
         (String (chr (128 + (cp / 64) mod 64))
            (String (chr (128 + cp mod 64)) EmptyString))).

Definition simple_escape (c : ascii) : option ascii :=
  if Ascii.eqb c quote then Some quote
  else if Ascii.eqb c backslash then Some backslash
  else if Ascii.eqb c "/"%char then Some "/"%char
  else if Ascii.eqb c "b"%char then Some "008"%char
  else if Ascii.eqb c "f"%char then Some "012"%char
  else if Ascii.eqb c "n"%char then Some "010"%char
  else if Ascii.eqb c "r"%char then Some "013"%char
  else if Ascii.eqb c "t"%char then Some "009"%char
  else None.

Definition is_high_surrogate (c : N) : bool := (55296 <=? c)%N && (c <=? 56319)%N.
Definition is_low_surrogate (c : N) : bool := (56320 <=? c)%N && (c <=? 57343)%N.

(** After a high surrogate [c] written [\uXXXX]: a following [\uXXXX] that
    is a low surrogate is joined with it. *)
Definition surrogate_pair (c : N) (s : string) : option (N * string) :=
  match s with
  | String b (String u t) =>
      if is_high_surrogate c && (6 <? String.length s)%nat
         && Ascii.eqb b backslash && Ascii.eqb u "u"%char then
        match hex4 t with
        | None => None
        | Some (c2, r) =>
            if is_low_surrogate c2
            then Some (65536 + (c - 55296) * 1024 + (c2 - 56320), r)%N
            else Some (c, s)
        end
      else Some (c, s)
  | _ => Some (c, s)
  end.

(** [scanstring] in strict mode, from just after the opening quote: the
    decoded string and what follows the closing quote. *)
Fixpoint scanstring (fuel : nat) (s : string) : option (string * string) :=
  match fuel with
  | O => None
  | S fuel' =>
      match s with
      | EmptyString => None
      | String c t =>
          if Ascii.eqb c quote then Some (EmptyString, t)
          else if Ascii.eqb c backslash then
            match t with
            | EmptyString => None
            | String e t1 =>
                if Ascii.eqb e "u"%char then
                  match hex4 t1 with
                  | None => None
                  | Some (cp, t2) =>
                      match surrogate_pair cp t2 with
                      | None => None
                      | Some (cp', t3) =>
                          match scanstring fuel' t3 with
                          | Some (r, rest) => Some (String.append (utf8_encode cp') r, rest)
                          | None => None
                          end
                      end
                  end
                else
                  match simple_escape e with
                  | None => None
                  | Some ch =>
                      match scanstring fuel' t1 with
                      | Some (r, rest) => Some (String ch r, rest)
                      | None => None
                      end
                  end
            end
          else if (N_of_ascii c <=? 31)%N then None
          else
            match scanstring fuel' t with
            | Some (r, rest) => Some (String c r, rest)
            | None => None
            end
      end
  end.

Definition parse_string (s : string) : option (string * string) :=
  scanstring (S (String.length s)) s.

(** A keyword at the head of [s]. *)
Definition keyword (k : string) (v : value) (s : string)
  : option (value * string) :=
  if String.prefix k s
  then Some (v, String.substring (String.length k)
                  (String.length s - String.length k) s)
  else None.

Definition first_of {A : Type} (a b : option A) : option A :=
  match a with
  | Some _ => a
  | None => b
  end.

(** *** Values

    [scan_once] reads one JSON term at the head of [s]; [parse_object] and
    [parse_array] read the members that follow an opening brace or bracket
    and the whitespace after it.  Each of them returns what follows the
    term.  [fuel] bounds the nesting; twice the length of the text is
    enough ([scan_fuel]). *)
Fixpoint scan_once (fuel : nat) (s : string) {struct fuel}
  : option (value * string) :=
  match fuel with
  | O => None
  | S fuel' =>
      match s with
      | EmptyString => None
      | String c t =>
          if Ascii.eqb c quote then
            match parse_string t with
            | Some (str, r) => Some (VStr str, r)
            | None => None
            end
          else if Ascii.eqb c "{"%char then
            match skip_ws t with
            | String c1 r =>
                if Ascii.eqb c1 "}"%char then Some (VDict [], r)
                else parse_object fuel' [] (String c1 r)
            | EmptyString => None
            end
          else if Ascii.eqb c "["%char then
            match skip_ws t with
            | String c1 r =>
                if Ascii.eqb c1 "]"%char then Some (VList [], r)
                else parse_array fuel' [] (String c1 r)
            | EmptyString => None
            end
          else
            first_of (keyword "null" VNone s)
            (first_of (keyword "true" (VBool true) s)
            (first_of (keyword "false" (VBool false) s)
            (first_of (match_number s)
            (first_of (keyword "NaN" (VFloat S754_nan) s)
            (first_of (keyword "Infinity" (VFloat (S754_infinity false)) s)
                      (keyword "-Infinity" (VFloat (S754_infinity true)) s))))))
      end
  end

with parse_object (fuel : nat) (acc : dict) (s : string) {struct fuel}
  : option (value * string) :=
  match fuel with
  | O => None
  | S fuel' =>
      match s with
      | EmptyString => None
      | String c t =>
          if Ascii.eqb c quote then
            match parse_string t with
            | None => None
            | Some (key, r) =>
                match skip_ws r with
                | EmptyString => None
                | String c1 r1 =>
                    if Ascii.eqb c1 ":"%char then
                      match scan_once fuel' (skip_ws r1) with
                      | None => None
                      | Some (v, r2) =>
                          let acc' := dict_set key v acc in
                          match skip_ws r2 with
                          | EmptyString => None
                          | String c2 r3 =>
                              if Ascii.eqb c2 "}"%char then Some (VDict acc', r3)
                              else if Ascii.eqb c2 ","%char
                              then parse_object fuel' acc' (skip_ws r3)
                              else None
                          end
                      end
                    else None
                end
            end
          else None
      end
  end

with parse_array (fuel : nat) (acc : list value) (s : string) {struct fuel}
  : option (value * string) :=
  match fuel with
  | O => None
  | S fuel' =>
      match scan_once fuel' s with
      | None => None
      | Some (v, r) =>
          let acc' := acc ++ [v] in
          match skip_ws r with
          | EmptyString => None
          | String c r1 =>
              if Ascii.eqb c "]"%char then Some (VList acc', r1)
              else if Ascii.eqb c ","%char
              then parse_array fuel' acc' (skip_ws r1)
              else None
          end
      end
  end.

Definition BOM : string := String "239" (String "187" (String "191" EmptyString)).

(** [json.loads(s)] for a [str]: one term, with whitespace around it and
    nothing else. *)
Definition loads (s : string) : result value :=
  if String.prefix BOM s then Raise JSONDecodeError
  else
    match scan_once (S (2 * String.length s)) (skip_ws s) with
    | None => Raise JSONDecodeError
    | Some (v, rest) =>
        match skip_ws rest with
        | EmptyString => Ok v
        | String _ _ => Raise JSONDecodeError
        end
    end.

End Json.

(* ================================================================= *)
(** ** The program *)

Import Base64.

(** [s[n:]] for a [str] whose first [n] characters are ASCII. *)
Fixpoint slice_from (n : nat) (s : string) : string :=
  match n, s with
  | O, _ => s
  | S n', String _ t => slice_from n' t
  | S _, EmptyString => EmptyString
  end.

(** [o[k]] for a dict. *)
Definition getitem (o : value) (k : string) : result value :=
  match o with
  | VDict d =>
      match dict_lookup k d with
      | Some v => Ok v
      | None => Raise KeyError
      end
  | _ => Raise TypeError
  end.

(** The body of the [try] block of [decode_vmess] (lines 25-27). *)
Definition decode_content (encoded_content : string) : result value :=
  raw <- b64decode encoded_content ;;
  decoded_content <- Utf8.decode raw ;;
  config <- Json.loads decoded_content ;;
  Ok config.

(** [decode_vmess] (lines 9-29). *)
Definition decode_vmess (vmess_link : string) : result value :=
  if negb (String.prefix "vmess://" vmess_link) then
    Raise (ValueError msg_scheme)
  else
    let encoded_content := slice_from 8 vmess_link in
    match decode_content encoded_content with
    | Ok config => Ok config
    | Raise e => Raise (ValueError (msg_parse e))
    end.

(** The document literal of lines 42-67. *)
Definition clash_config_literal : value :=
  VDict
    [("port", VInt 7890);
     ("socks-port", VInt 7891);
     ("allow-lan", VBool true);
     ("mode", VStr "rule");
     ("log-level", VStr "info");
     ("external-controller", VStr "127.0.0.1:9090");
     ("proxies", VList []);
     ("proxy-groups",
       VList
         [VDict [("name", VStr "PROXY");
                 ("type", VStr "select");
                 ("proxies", VList [VStr "自动选择"])];
          VDict [("name", VStr "自动选择");
                 ("type", VStr "url-test");
                 ("url", VStr "http://www.gstatic.com/generate_204");
                 ("interval", VInt 300);
                 ("proxies", VList [])]]);
     ("rules", VList [VStr "MATCH,PROXY"])].

(** [generate_clash_config] (lines 31-107). *)
Definition generate_clash_config (vmess_config : value) : result value :=
  let clash_config := clash_config_literal in
  proxy_name <- get vmess_config "ps" (VStr "Vmess节点") ;;
  scy <- get vmess_config "scy" (VStr "auto") ;;
  security <- (if truthy scy then Ok scy
               else get vmess_config "security" (VStr "auto")) ;;
  lowered <- lower security ;;
  let security := if String.eqb lowered "zero" then VStr "auto" else security in
  server <- get vmess_config "add" (VStr EmptyString) ;;
  port <- (v <- get vmess_config "port" (VInt 443) ;; int v) ;;
  uuid <- get vmess_config "id" (VStr EmptyString) ;;
  alterId <- (v <- get vmess_config "aid" (VInt 0) ;; int v) ;;
  tls <- get vmess_config "tls" (VStr EmptyString) ;;
  network <- get vmess_config "net" (VStr "tcp") ;;
  let proxy :=
    VDict
      [("name", proxy_name);
       ("type", VStr "vmess");
       ("server", server);
       ("port", VInt port);
       ("uuid", uuid);
       ("alterId", VInt alterId);
       ("cipher", security);
       ("udp", VBool true);
       ("tls", VBool (eq_str tls "tls"));
       ("skip-cert-verify", VBool true);
       ("network", network)] in
  net <- getitem proxy "network" ;;
  proxy <- (if eq_str net "ws" then
              path <- get vmess_config "path" (VStr "/") ;;
              host <- get vmess_config "host" (VStr EmptyString) ;;
              match proxy with
              | VDict p =>
                  Ok (VDict (dict_set "ws-opts"
                               (VDict [("path", path);
                                       ("headers", VDict [("host", host)])]) p))
              | _ => Raise TypeError
              end
            else Ok proxy) ;;
  clash_config <- append_at [Key "proxies"] proxy clash_config ;;
  clash_config <-
    append_at [Key "proxy-groups"; Idx 0; Key "proxies"] proxy_name clash_config ;;
  clash_config <-
    append_at [Key "proxy-groups"; Idx 1; Key "proxies"] proxy_name clash_config ;;
  Ok clash_config.

(** The conversion of [vmess_to_clash] (lines 119-122): decode, then map.
    Writing the document to the output file is outside the model. *)
Definition convert (vmess_link : string) : result value :=
  vmess_config <- decode_vmess vmess_link ;;
  generate_clash_config vmess_config.

(** The value [vmess_to_clash] returns when the file can be written. *)
Definition vmess_to_clash (vmess_link : string) : bool :=
  match convert vmess_link with
  | Ok _ => true
  | Raise _ => false
  end.

(* ================================================================= *)
(** ** Vocabulary of the specification *)

(** The link built from an encoded payload. *)
Definition vmess_link_of (encoded : list byte) : string :=
  "vmess://" ++ string_of_list_byte encoded.

(** A field of a mapping. *)
Definition field (k : string) (o : value) : option value :=
  match o with
  | VDict d => dict_lookup k d
  | _ => None
  end.

Definition list_field (k : string) (o : value) : list value :=
  match field k o with
  | Some (VList l) => l
  | _ => []
  end.

(** The proxies sequence and the proxy-groups of a document, the member
    list of a group. *)
Definition doc_proxies : value -> list value := list_field "proxies".
Definition doc_groups : value -> list value := list_field "proxy-groups".
Definition members : value -> list value := list_field "proxies".

(** The value a record gives a key, or the default of the field table. *)
Definition get_or (d : dict) (k : string) (default : value) : value :=
  match dict_lookup k d with
  | Some v => v
  | None => default
  end.

(** The eleven keys [generate_clash_config] reads. *)
Definition mapped_keys : list string :=
  ["ps"; "scy"; "security"; "add"; "port"; "id"; "aid"; "tls"; "net";
   "path"; "host"].

(** JSON text written with apostrophes in place of double quotes. *)
Definition json_text (s : string) : string :=
  string_of_list_ascii
    (map (fun c => if Ascii.eqb c "'"%char then Json.quote else c)
       (list_ascii_of_string s)).

(** The UTF-8 bytes of a [str]. *)
Definition encode_utf8 (s : string) : list byte := list_byte_of_string s.

(** The end-to-end example of the specification. *)
Definition example_record_text : string :=
  json_text
    "{'ps':'Test','add':'1.2.3.4','port':'10086','id':'abc-123','aid':'0','net':'ws','path':'/path','host':'a.com','tls':'tls'}".

(** Base64 text in its canonical form: groups of four alphabet characters,
    the last group possibly ending in one or two ['=']. *)
Fixpoint b64_wellformed (l : list byte) : bool :=
  match l with
  | [] => true
  | [c0; c1; c2; c3] =>
      match a2b c0, a2b c1 with
      | Some _, Some _ =>
          match a2b c2, a2b c3 with
          | Some _, Some _ => true
          | Some _, None => Byte.eqb c3 BASE64_PAD
          | None, _ => Byte.eqb c2 BASE64_PAD && Byte.eqb c3 BASE64_PAD
          end
      | _, _ => false
      end
  | c0 :: c1 :: c2 :: c3 :: rest =>
      match a2b c0, a2b c1, a2b c2, a2b c3 with
      | Some _, Some _, Some _, Some _ => b64_wellformed rest
      | _, _, _, _ => false
      end
  | _ => false
  end.

(** Boolean checks on the base64 tables, decided by enumeration: a 6-bit
    group is recovered from its character, which is ASCII and not
    ['=']; the groups of two neighbouring bytes are below 64 and
    recombine, in the decoder's way, to the bytes. *)
Definition sextet_ok (s : N) : bool :=
  match a2b (b2a s) with
  | Some s' => N.eqb s' s
  | None => false
  end
  && negb (Byte.eqb (b2a s) BASE64_PAD)
  && is_ascii (b2a s).

Definition pair_ok (a b : N) : bool :=
  (g0 a <? 64)%N && (g1 a b <? 64)%N && (g2 a b <? 64)%N && (g3 b <? 64)%N
  && N.eqb (N.lor (N.shiftl (g0 a) 2) (N.shiftr (g1 a b) 4) mod 256) a
  && N.eqb (N.land (g1 a b) 15) (N.shiftr b 4)
  && N.eqb (N.shiftr (g2 a b) 2) (N.land a 15)
  && N.eqb (N.lor (N.shiftl (N.shiftr a 4) 4) (N.land a 15) mod 256) a
  && N.eqb (N.lor (N.shiftl (N.land (g2 a b) 3) 6) (g3 b) mod 256) b.

(** *** The result of [generate_clash_config] in closed form

    The definitions below name the parts of the document the function
    returns on a record [d]; [generate_clash_config_dict] proves that it
    returns exactly this. *)

(** The value line 73 binds to [security]. *)
Definition resolved_security (d : dict) : value :=
  let scy := get_or d "scy" (VStr "auto") in
  if truthy scy then scy else get_or d "security" (VStr "auto").

(** Lines 74-75, given the lower-cased text of [security]. *)
Definition cipher_of (security : value) (lowered : string) : value :=
  if String.eqb lowered "zero" then VStr "auto" else security.

Definition ws_opts (d : dict) : value :=
  VDict [("path", get_or d "path" (VStr "/"));
         ("headers", VDict [("host", get_or d "host" (VStr EmptyString))])].

Definition proxy_entry (d : dict) (port alterId : Z) (cipher : value) : dict :=
  [("name", get_or d "ps" (VStr "Vmess节点"));
   ("type", VStr "vmess");
   ("server", get_or d "add" (VStr EmptyString));
   ("port", VInt port);
   ("uuid", get_or d "id" (VStr EmptyString));
   ("alterId", VInt alterId);
   ("cipher", cipher);
   ("udp", VBool true);
   ("tls", VBool (eq_str (get_or d "tls" (VStr EmptyString)) "tls"));
   ("skip-cert-verify", VBool true);
   ("network", get_or d "net" (VStr "tcp"))]
  ++ (if eq_str (get_or d "net" (VStr "tcp")) "ws"
      then [("ws-opts", ws_opts d)] else []).

Definition select_group (proxy_name : value) : value :=
  VDict [("name", VStr "PROXY");
         ("type", VStr "select");
         ("proxies", VList [VStr "自动选择"; proxy_name])].

Definition url_test_group (proxy_name : value) : value :=
  VDict [("name", VStr "自动选择");
         ("type", VStr "url-test");
         ("url", VStr "http://www.gstatic.com/generate_204");
         ("interval", VInt 300);
         ("proxies", VList [proxy_name])].

Definition document (proxy proxy_name : value) : value :=
  VDict
    [("port", VInt 7890);
     ("socks-port", VInt 7891);
     ("allow-lan", VBool true);
     ("mode", VStr "rule");
     ("log-level", VStr "info");
     ("external-controller", VStr "127.0.0.1:9090");
     ("proxies", VList [proxy]);
     ("proxy-groups", VList [select_group proxy_name; url_test_group proxy_name]);
     ("rules", VList [VStr "MATCH,PROXY"])].

Definition document_of (d : dict) (port alterId : Z) (lowered : string) : value :=
  document
    (VDict (proxy_entry d port alterId (cipher_of (resolved_security d) lowered)))
    (get_or d "ps" (VStr "Vmess节点")).

(** The link of the end-to-end example, and the entry expected for it. *)
Definition example_link : string :=
  "vmess://eyJwcyI6IlRlc3QiLCJhZGQiOiIxLjIuMy40IiwicG9ydCI6IjEwMDg2IiwiaWQiOiJhYmMtMTIzIiwiYWlkIjoiMCIsIm5ldCI6IndzIiwicGF0aCI6Ii9wYXRoIiwiaG9zdCI6ImEuY29tIiwidGxzIjoidGxzIn0=".

Definition example_proxy : value :=
  VDict
    [("name", VStr "Test");
     ("type", VStr "vmess");
     ("server", VStr "1.2.3.4");
     ("port", VInt 10086);
     ("uuid", VStr "abc-123");
     ("alterId", VInt 0);
     ("cipher", VStr "auto");
     ("udp", VBool true);
     ("tls", VBool true);
     ("skip-cert-verify", VBool true);
     ("network", VStr "ws");
     ("ws-opts",
       VDict [("path", VStr "/path");
              ("headers", VDict [("host", VStr "a.com")])])].

(** A group's members are all names of the document: of one of its
    proxies or of one of its groups. *)
Definition names_proxy (doc m : value) : Prop :=
  exists p, In p (doc_proxies doc) /\ field "name" p = Some m.

Definition names_group (doc m : value) : Prop :=
  exists g, In g (doc_groups doc) /\ field "name" g = Some m.

(** A character of the base64 alphabet. *)
Definition in_alphabet (c : byte) : bool :=
  match a2b c with Some _ => true | None => false end.

(** A scanner result leaves less text than it was given. *)
Definition shorter (s : string) (res : option (value * string)) : Prop :=
  forall v r, res = Some (v, r) -> (String.length r < String.length s)%nat.

(* ================================================================= *)
(** ** Further vocabulary *)

(** The keys of a mapping, in their order. *)
Definition keys (o : value) : list string :=
  match o with
  | VDict d => map fst d
  | _ => []
  end.

(** The decimal text of an integer, as [str(z)] writes it. *)
Definition decimal (z : Z) : string := DecimalString.NilEmpty.string_of_int (Z.to_int z).

(** The number read from decimal digits, after the digits that gave [acc]. *)
Fixpoint uint_value (acc : Z) (d : Decimal.uint) : Z :=
  match d with
  | Decimal.Nil => acc
  | Decimal.D0 l => uint_value (10 * acc + 0) l
  | Decimal.D1 l => uint_value (10 * acc + 1) l
  | Decimal.D2 l => uint_value (10 * acc + 2) l
  | Decimal.D3 l => uint_value (10 * acc + 3) l
  | Decimal.D4 l => uint_value (10 * acc + 4) l
  | Decimal.D5 l => uint_value (10 * acc + 5) l
  | Decimal.D6 l => uint_value (10 * acc + 6) l
  | Decimal.D7 l => uint_value (10 * acc + 7) l
  | Decimal.D8 l => uint_value (10 * acc + 8) l
  | Decimal.D9 l => uint_value (10 * acc + 9) l
  end.


(* ================================================================= *)
(** ** [vmess_to_clash] and [main] with their effects *)

(** What [vmess_to_clash] catches and prints (line 130): an exception of
    the conversion, or an error of the file system. *)
Inductive failure : Type :=
| Conversion (e : exception)
| OpenFailed      (* OSError raised by open(output_file, 'w') *)
| DumpFailed.     (* an error raised while yaml.dump writes *)

(** The effects of a run, in the order they happen. *)
Inductive event : Type :=
| Opened (path : string)               (* the file is created or truncated *)
| Dumped (path : string) (doc : value) (* yaml.dump(doc, f) has written doc *)
| PrintSaved (path : string)           (* f"Clash 配置已保存到 {output_file}" *)
| PrintFailed (f : failure)            (* f"转换失败: {e}" *)
| Prompt (text : string).              (* the prompt of input() *)

Section Effects.

(** The file system: whether a path can be opened for writing, and whether
    writing a document to it completes. *)
Variable can_open : string -> bool.
Variable can_dump : string -> value -> bool.

(** [vmess_to_clash] (lines 109-132): the value returned and the effects. *)
Definition vmess_to_clash_run (vmess_link output_file : string)
  : bool * list event :=
  match decode_vmess vmess_link with
  | Raise e => (false, [PrintFailed (Conversion e)])
  | Ok vmess_config =>
      match generate_clash_config vmess_config with
      | Raise e => (false, [PrintFailed (Conversion e)])
      | Ok clash_config =>
          if can_open output_file then
            if can_dump output_file clash_config then
              (true, [Opened output_file; Dumped output_file clash_config;
                      PrintSaved output_file])
            else (false, [Opened output_file; PrintFailed DumpFailed])
          else (false, [PrintFailed OpenFailed])
      end
  end.

(** [main] (lines 134-143) on the arguments [argv] and the lines [stdin]
    that [input] can read: the effects, and whether [main] returns
    ([false] when [input] meets the end of the input and its [EOFError]
    escapes). *)
Definition main (argv stdin : list string) : list event * bool :=
  match argv with
  | _ :: vmess_link :: rest =>
      let output_file :=
        match rest with
        | out :: _ => out
        | [] => "config.yaml"
        end in
      (snd (vmess_to_clash_run vmess_link output_file), true)
  | _ =>
      match stdin with
      | [] => ([Prompt "请输入 vmess 链接 (以 vmess:// 开头): "], false)
      | vmess_link :: more =>
          match more with
          | [] =>
              ([Prompt "请输入 vmess 链接 (以 vmess:// 开头): ";
                Prompt "请输入输出文件名 (默认为 config.yaml): "], false)
          | answer :: _ =>
              let output_file :=
                if String.eqb answer EmptyString then "config.yaml" else answer in
              (Prompt "请输入 vmess 链接 (以 vmess:// 开头): "
               :: Prompt "请输入输出文件名 (默认为 config.yaml): "
               :: snd (vmess_to_clash_run vmess_link output_file), true)
          end
      end
  end.

End Effects.

(* ================================================================= *)
(** * Properties *)

(** ** Base64: decoding inverts encoding *)

(** A property of all numbers below a bound, checked by enumeration. *)
Lemma all_below (n : nat) (P : N -> bool) :
  forallb P (map N.of_nat (seq 0 n)) = true ->
  forall x, (x < N.of_nat n)%N -> P x = true.
Proof.
  intros Hall x Hx.
  rewrite forallb_forall in Hall.
  apply Hall, in_map_iff.
  exists (N.to_nat x). split.
  - apply N2Nat.id.
  - apply in_seq. lia.
Qed.

Lemma to_N_lt_256 (x : byte) : (Byte.to_N x < 256)%N.
Proof. pose proof (Byte.to_N_bounded x). lia. Qed.

Lemma byte_of_N_eq (n : N) (x : byte) :
  (n mod 256)%N = Byte.to_N x -> byte_of_N n = x.
Proof.
  intros H. unfold byte_of_N. now rewrite H, Byte.of_to_N.
Qed.

Lemma sextet_facts (s : N) :
  (s < 64)%N ->
  a2b (b2a s) = Some s /\ Byte.eqb (b2a s) BASE64_PAD = false
  /\ is_ascii (b2a s) = true.
Proof.
  intros Hs.
  assert (H : sextet_ok s = true).
  { apply (all_below 64 sextet_ok); [vm_compute; reflexivity | exact Hs]. }
  unfold sextet_ok in H.
  apply andb_true_iff in H as [H Hascii].
  apply andb_true_iff in H as [Hdec Hpad].
  repeat split; trivial.
  - destruct (a2b (b2a s)) as [s'|]; [|discriminate].
    apply N.eqb_eq in Hdec. now subst.
  - now apply negb_true_iff.
Qed.

Lemma pair_facts (a b : N) :
  (a < 256)%N -> (b < 256)%N -> pair_ok a b = true.
Proof.
  intros Ha Hb.
  assert (H : forallb (fun x => forallb (pair_ok x) (map N.of_nat (seq 0 256)))
                (map N.of_nat (seq 0 256)) = true)
    by (vm_compute; reflexivity).
  pose proof (all_below 256 _ H a Ha) as Hrow.
  exact (all_below 256 _ Hrow b Hb).
Qed.

(** The facts of [pair_ok], as equations. *)
Lemma pair_props (a b : N) :
  (a < 256)%N -> (b < 256)%N ->
  (g0 a < 64 /\ g1 a b < 64 /\ g2 a b < 64 /\ g3 b < 64)%N
  /\ (N.lor (N.shiftl (g0 a) 2) (N.shiftr (g1 a b) 4) mod 256 = a)%N
  /\ N.land (g1 a b) 15 = N.shiftr b 4
  /\ N.shiftr (g2 a b) 2 = N.land a 15
  /\ (N.lor (N.shiftl (N.shiftr a 4) 4) (N.land a 15) mod 256 = a)%N
  /\ (N.lor (N.shiftl (N.land (g2 a b) 3) 6) (g3 b) mod 256 = b)%N.
Proof.
  intros Ha Hb. pose proof (pair_facts a b Ha Hb) as H.
  unfold pair_ok in H.
  repeat (apply andb_true_iff in H; destruct H as [H ?]).
  repeat match goal with
         | K : (_ <? _)%N = true |- _ => apply N.ltb_lt in K
         | K : N.eqb _ _ = true |- _ => apply N.eqb_eq in K
         end.
  repeat split; assumption.
Qed.

(** Induction on a list, three elements at a time. *)
Lemma list_ind_by_three {A : Type} (P : list A -> Prop) :
  P [] ->
  (forall x, P [x]) ->
  (forall x y, P [x; y]) ->
  (forall x y z rest, P rest -> P (x :: y :: z :: rest)) ->
  forall l, P l.
Proof.
  intros H0 H1 H2 H3 l.
  enough (K : P l /\ (forall x, P (x :: l)) /\ (forall x y, P (x :: y :: l)))
    by apply K.
  induction l as [|z rest [IH0 [IH1 IH2]]].
  - auto.
  - repeat split; auto.
Qed.

Lemma length_three_more {A : Type} (x y z : A) (rest : list A) :
  (List.length (x :: y :: z :: rest) mod 3 = List.length rest mod 3)%nat.
Proof.
  change (List.length (x :: y :: z :: rest)) with (3 + List.length rest)%nat.
  rewrite Nat.add_comm.
  change 3%nat with (1 * 3)%nat at 1.
  apply Nat.Div0.mod_add.
Qed.

(** One step of the decoding loop on an alphabet character. *)
Lemma a2b_loop_char (s : N) rest quad_pos leftchar pads bin_data :
  (s < 64)%N ->
  a2b_loop (b2a s :: rest) quad_pos leftchar pads bin_data =
  match quad_pos with
  | 0%nat => a2b_loop rest 1 s 0 bin_data
  | 1%nat =>
      a2b_loop rest 2 (N.land s 15) 0
        (bin_data ++ [byte_of_N (N.lor (N.shiftl leftchar 2) (N.shiftr s 4))])
  | 2%nat =>
      a2b_loop rest 3 (N.land s 3) 0
        (bin_data ++ [byte_of_N (N.lor (N.shiftl leftchar 4) (N.shiftr s 2))])
  | _ =>
      a2b_loop rest 0 0 0
        (bin_data ++ [byte_of_N (N.lor (N.shiftl leftchar 6) s)])
  end.
Proof.
  intros Hs. destruct (sextet_facts s Hs) as [Hdec [Hpad _]].
  cbn [a2b_loop]. now rewrite Hpad, Hdec.
Qed.

(** The first two characters of a group give back its first byte. *)
Lemma a2b_loop_two (x : byte) (b : N) rest leftchar pads bin_data :
  (b < 256)%N ->
  a2b_loop (b2a (g0 (Byte.to_N x)) :: b2a (g1 (Byte.to_N x) b) :: rest)
    0 leftchar pads bin_data =
  a2b_loop rest 2 (N.shiftr b 4) 0 (bin_data ++ [x]).
Proof.
  intros Hb.
  destruct (pair_props (Byte.to_N x) b (to_N_lt_256 x) Hb)
    as [[B0 [B1 _]] [E0 [E1 _]]].
  rewrite (a2b_loop_char _ _ _ _ _ _ B0), (a2b_loop_char _ _ _ _ _ _ B1).
  now rewrite E1, (byte_of_N_eq _ x E0).
Qed.

(** The third character gives back the second byte. *)
Lemma a2b_loop_third (y : byte) (c : N) rest bin_data :
  (c < 256)%N ->
  a2b_loop (b2a (g2 (Byte.to_N y) c) :: rest)
    2 (N.shiftr (Byte.to_N y) 4) 0 bin_data =
  a2b_loop rest 3 (N.land (g2 (Byte.to_N y) c) 3) 0 (bin_data ++ [y]).
Proof.
  intros Hc.
  destruct (pair_props (Byte.to_N y) c (to_N_lt_256 y) Hc)
    as [[_ [_ [B2 _]]] [_ [_ [E2 [E3 _]]]]].
  rewrite (a2b_loop_char _ _ _ _ _ _ B2).
  now rewrite E2, (byte_of_N_eq _ y E3).
Qed.

(** A full group of four characters gives back its three bytes. *)
Lemma a2b_loop_group (x y z : byte) rest leftchar pads bin_data :
  a2b_loop
    (b2a (g0 (Byte.to_N x)) :: b2a (g1 (Byte.to_N x) (Byte.to_N y))
     :: b2a (g2 (Byte.to_N y) (Byte.to_N z)) :: b2a (g3 (Byte.to_N z)) :: rest)
    0 leftchar pads bin_data =
  a2b_loop rest 0 0 0 (bin_data ++ [x; y; z]).
Proof.
  rewrite a2b_loop_two by apply to_N_lt_256.
  rewrite a2b_loop_third by apply to_N_lt_256.
  destruct (pair_props (Byte.to_N y) (Byte.to_N z) (to_N_lt_256 y) (to_N_lt_256 z))
    as [[_ [_ [_ B3]]] [_ [_ [_ [_ E4]]]]].
  rewrite (a2b_loop_char _ _ _ _ _ _ B3).
  rewrite (byte_of_N_eq _ z E4).
  now rewrite <- !app_assoc.
Qed.

(** Decoding the padded encoding gives back the bytes. *)
Lemma a2b_loop_b64encode (data : list byte) :
  forall leftchar pads bin_data,
    a2b_loop (b64encode data) 0 leftchar pads bin_data = Ok (bin_data ++ data).
Proof.
  induction data as [|x|x y|x y z rest IH] using list_ind_by_three;
    intros leftchar pads bin_data; cbn [b64encode].
  - cbn. now rewrite app_nil_r.
  - rewrite a2b_loop_two by reflexivity. reflexivity.
  - rewrite a2b_loop_two by apply to_N_lt_256.
    rewrite a2b_loop_third by reflexivity.
    cbn. now rewrite <- app_assoc.
  - rewrite a2b_loop_group, IH. now rewrite <- app_assoc.
Qed.

Lemma strip_padding_cons (c : byte) (t : list byte) :
  Byte.eqb c BASE64_PAD = false ->
  strip_padding (c :: t) = c :: strip_padding t.
Proof.
  intros H. cbn [strip_padding]. rewrite H. now destruct (strip_padding t).
Qed.

Lemma strip_padding_char (s : N) (t : list byte) :
  (s < 64)%N -> strip_padding (b2a s :: t) = b2a s :: strip_padding t.
Proof.
  intros Hs. apply strip_padding_cons, (sextet_facts s Hs).
Qed.

(** Decoding the encoding without its padding: the bytes when there was
    no padding, an error otherwise. *)
Lemma a2b_loop_stripped (data : list byte) :
  forall leftchar pads bin_data,
    a2b_loop (strip_padding (b64encode data)) 0 leftchar pads bin_data =
    if (List.length data mod 3 =? 0)%nat then Ok (bin_data ++ data)
    else Raise BinasciiError.
Proof.
  induction data as [|x|x y|x y z rest IH] using list_ind_by_three;
    intros leftchar pads bin_data.
  - cbn. now rewrite app_nil_r.
  - cbn [b64encode].
    destruct (pair_props (Byte.to_N x) 0 (to_N_lt_256 x) eq_refl)
      as [[B0 [B1 _]] _].
    rewrite !strip_padding_char by assumption.
    change (strip_padding [BASE64_PAD; BASE64_PAD]) with (@nil byte).
    rewrite a2b_loop_two by reflexivity. reflexivity.
  - cbn [b64encode].
    destruct (pair_props (Byte.to_N x) (Byte.to_N y) (to_N_lt_256 x) (to_N_lt_256 y))
      as [[B0 [B1 _]] _].
    destruct (pair_props (Byte.to_N y) 0 (to_N_lt_256 y) eq_refl)
      as [[_ [_ [B2 _]]] _].
    rewrite !strip_padding_char by assumption.
    change (strip_padding [BASE64_PAD]) with (@nil byte).
    rewrite a2b_loop_two by apply to_N_lt_256.
    rewrite a2b_loop_third by reflexivity. reflexivity.
  - cbn [b64encode].
    destruct (pair_props (Byte.to_N x) (Byte.to_N y) (to_N_lt_256 x) (to_N_lt_256 y))
      as [[B0 [B1 _]] _].
    destruct (pair_props (Byte.to_N y) (Byte.to_N z) (to_N_lt_256 y) (to_N_lt_256 z))
      as [[_ [_ [B2 B3]]] _].
    rewrite !strip_padding_char by assumption.
    rewrite a2b_loop_group, IH, length_three_more.
    destruct (List.length rest mod 3 =? 0)%nat; [|reflexivity].
    now rewrite <- app_assoc.
Qed.

(** The encoding is ASCII text, with or without its padding. *)
Lemma b64encode_ascii (data : list byte) :
  forallb is_ascii (b64encode data) = true.
Proof.
  induction data as [|x|x y|x y z rest IH] using list_ind_by_three;
    cbn [b64encode forallb]; trivial.
  - destruct (pair_props (Byte.to_N x) 0 (to_N_lt_256 x) eq_refl)
      as [[B0 [B1 _]] _].
    destruct (sextet_facts _ B0) as [_ [_ ->]].
    destruct (sextet_facts _ B1) as [_ [_ ->]]. reflexivity.
  - destruct (pair_props (Byte.to_N x) (Byte.to_N y) (to_N_lt_256 x) (to_N_lt_256 y))
      as [[B0 [B1 _]] _].
    destruct (pair_props (Byte.to_N y) 0 (to_N_lt_256 y) eq_refl)
      as [[_ [_ [B2 _]]] _].
    destruct (sextet_facts _ B0) as [_ [_ ->]].
    destruct (sextet_facts _ B1) as [_ [_ ->]].
    destruct (sextet_facts _ B2) as [_ [_ ->]]. reflexivity.
  - destruct (pair_props (Byte.to_N x) (Byte.to_N y) (to_N_lt_256 x) (to_N_lt_256 y))
      as [[B0 [B1 _]] _].
    destruct (pair_props (Byte.to_N y) (Byte.to_N z) (to_N_lt_256 y) (to_N_lt_256 z))
      as [[_ [_ [B2 B3]]] _].
    destruct (sextet_facts _ B0) as [_ [_ ->]].
    destruct (sextet_facts _ B1) as [_ [_ ->]].
    destruct (sextet_facts _ B2) as [_ [_ ->]].
    destruct (sextet_facts _ B3) as [_ [_ ->]]. exact IH.
Qed.

Lemma strip_padding_ascii (l : list byte) :
  forallb is_ascii l = true -> forallb is_ascii (strip_padding l) = true.
Proof.
  induction l as [|c t IH]; [trivial|].
  cbn [forallb strip_padding]. intros H.
  apply andb_true_iff in H as [Hc Ht]. specialize (IH Ht).
  destruct (strip_padding t) as [|c' t'].
  - destruct (Byte.eqb c BASE64_PAD); [reflexivity|].
    cbn [forallb]. now rewrite Hc.
  - cbn [forallb] in *. now rewrite Hc.
Qed.

(** [b64decode] inverts [b64encode]. *)
Lemma b64decode_b64encode (data : list byte) :
  b64decode (string_of_list_byte (b64encode data)) = Ok data.
Proof.
  unfold b64decode, a2b_base64.
  rewrite list_byte_of_string_of_list_byte, b64encode_ascii.
  apply (a2b_loop_b64encode data 0%N 0%nat []).
Qed.

Lemma b64decode_stripped (data : list byte) :
  b64decode (string_of_list_byte (strip_padding (b64encode data))) =
  if (List.length data mod 3 =? 0)%nat then Ok data else Raise BinasciiError.
Proof.
  unfold b64decode, a2b_base64.
  rewrite list_byte_of_string_of_list_byte.
  rewrite strip_padding_ascii by apply b64encode_ascii.
  apply (a2b_loop_stripped data 0%N 0%nat []).
Qed.

(** A text of alphabet characters only is accepted exactly when its length
    is a multiple of four: the decoder rejects input that ends inside a
    group. *)
Lemma alphabet_char (c : byte) :
  in_alphabet c = true -> is_ascii c = true /\ Byte.eqb c BASE64_PAD = false.
Proof. destruct c; vm_compute; intuition congruence. Qed.

Lemma a2b_loop_alphabet (l : list byte) :
  forallb in_alphabet l = true ->
  forall quad_pos leftchar pads bin_data,
    (quad_pos < 4)%nat ->
    (succeeds (a2b_loop l quad_pos leftchar pads bin_data)
     <-> ((quad_pos + List.length l) mod 4 = 0)%nat).
Proof.
  induction l as [|c t IH]; intros Hl q lc p out Hq.
  - cbn [a2b_loop List.length]. rewrite Nat.add_0_r, Nat.mod_small by exact Hq.
    destruct q; cbn; split; trivial; try discriminate.
    + now eexists.
    + intros [x K]. discriminate K.
  - cbn [forallb] in Hl. apply andb_true_iff in Hl as [Hc Ht].
    destruct (alphabet_char c Hc) as [_ Hpad].
    unfold in_alphabet in Hc. cbn [a2b_loop]. rewrite Hpad.
    destruct (a2b c) as [v|]; [clear Hc|discriminate Hc].
    cbn [List.length]. rewrite <- Nat.add_succ_comm.
    destruct q as [|[|[|q]]].
    + apply IH; [exact Ht | lia].
    + apply IH; [exact Ht | lia].
    + apply IH; [exact Ht | lia].
    + assert (q = 0)%nat as -> by lia.
      rewrite IH by (trivial; lia).
      replace (4 + List.length t)%nat with (0 + List.length t + 1 * 4)%nat by lia.
      now rewrite Nat.Div0.mod_add.
Qed.

Lemma list_byte_of_string_length (s : string) :
  List.length (list_byte_of_string s) = String.length s.
Proof.
  induction s as [|c s IH]; [reflexivity|].
  cbn. now rewrite <- IH.
Qed.

Lemma b64decode_alphabet_text (s : string) :
  forallb in_alphabet (list_byte_of_string s) = true ->
  (succeeds (b64decode s) <-> (String.length s mod 4 = 0)%nat).
Proof.
  intros H. unfold b64decode, a2b_base64.
  assert (Ha : forallb is_ascii (list_byte_of_string s) = true).
  { rewrite forallb_forall in *. intros c Hc. now apply alphabet_char, H. }
  rewrite Ha, (a2b_loop_alphabet _ H) by lia.
  now rewrite list_byte_of_string_length.
Qed.

(** ** The JSON scanner: every step consumes text, and the fuel is enough *)

Import Json.

Lemma skip_ws_length (s : string) :
  (String.length (skip_ws s) <= String.length s)%nat.
Proof.
  induction s as [|c t IH]; cbn [skip_ws]; [lia|].
  destruct (is_ws c); cbn [String.length] in *; lia.
Qed.

Lemma span_digits_length (s : string) ds r :
  span_digits s = (ds, r) -> (String.length r <= String.length s)%nat.
Proof.
  revert ds r. induction s as [|c t IH]; intros ds r; cbn [span_digits].
  - intros [= <- <-]. lia.
  - destruct (is_digit c).
    + destruct (span_digits t) as [ds' r'] eqn:E. intros [= <- <-].
      specialize (IH _ _ eq_refl). cbn [String.length]. lia.
    + intros [= <- <-]. lia.
Qed.

Lemma hex4_length (s : string) n r :
  hex4 s = Some (n, r) -> String.length s = (4 + String.length r)%nat.
Proof.
  unfold hex4.
  destruct s as [|a [|b [|c [|d t]]]]; try discriminate.
  destruct (hex_val a), (hex_val b), (hex_val c), (hex_val d); try discriminate.
  now intros [= <- <-].
Qed.

Lemma surrogate_pair_length (c : N) (s : string) c' r :
  surrogate_pair c s = Some (c', r) -> (String.length r <= String.length s)%nat.
Proof.
  unfold surrogate_pair.
  destruct s as [|b [|u t]]; try (intros [= <- <-]; lia).
  destruct (_ && _); [|intros [= <- <-]; lia].
  destruct (hex4 t) as [[c2 r']|] eqn:E; [|discriminate].
  apply hex4_length in E.
  destruct (is_low_surrogate c2); intros [= <- <-]; cbn [String.length] in *; lia.
Qed.

Lemma scanstring_length (fuel : nat) :
  forall s str r,
    scanstring fuel s = Some (str, r) -> (String.length r < String.length s)%nat.
Proof.
  induction fuel as [|fuel IH]; intros s str r; cbn [scanstring]; [discriminate|].
  destruct s as [|c t]; [discriminate|]. cbn [String.length].
  destruct (Ascii.eqb c quote); [intros [= <- <-]; lia|].
  destruct (Ascii.eqb c backslash).
  - destruct t as [|e t1]; [discriminate|]. cbn [String.length].
    destruct (Ascii.eqb e "u"%char).
    + destruct (hex4 t1) as [[cp t2]|] eqn:E1; [|discriminate].
      destruct (surrogate_pair cp t2) as [[cp' t3]|] eqn:E2; [|discriminate].
      destruct (scanstring fuel t3) as [[r' rest]|] eqn:E3; [|discriminate].
      intros [= <- <-].
      apply hex4_length in E1. apply surrogate_pair_length in E2.
      apply IH in E3. lia.
    + destruct (simple_escape e); [|discriminate].
      destruct (scanstring fuel t1) as [[r' rest]|] eqn:E3; [|discriminate].
      intros [= <- <-]. apply IH in E3. lia.
  - destruct (N_of_ascii c <=? 31)%N; [discriminate|].
    destruct (scanstring fuel t) as [[r' rest]|] eqn:E3; [|discriminate].
    intros [= <- <-]. apply IH in E3. lia.
Qed.

Lemma scanstring_fuel (n : nat) :
  forall m s,
    (String.length s < n)%nat -> (String.length s < m)%nat ->
    scanstring n s = scanstring m s.
Proof.
  induction n as [|n IH]; intros m s Hn Hm; [lia|].
  destruct m as [|m]; [lia|]. cbn [scanstring].
  destruct s as [|c t]; [reflexivity|]. cbn [String.length] in *.
  destruct (Ascii.eqb c quote); [reflexivity|].
  destruct (Ascii.eqb c backslash).
  - destruct t as [|e t1]; [reflexivity|]. cbn [String.length] in *.
    destruct (Ascii.eqb e "u"%char).
    + destruct (hex4 t1) as [[cp t2]|] eqn:E1; [|reflexivity].
      destruct (surrogate_pair cp t2) as [[cp' t3]|] eqn:E2; [|reflexivity].
      apply hex4_length in E1. apply surrogate_pair_length in E2.
      now rewrite (IH m t3) by lia.
    + destruct (simple_escape e); [|reflexivity].
      now rewrite (IH m t1) by lia.
  - destruct (N_of_ascii c <=? 31)%N; [reflexivity|].
    now rewrite (IH m t) by lia.
Qed.

Lemma parse_string_length (s str r : string) :
  parse_string s = Some (str, r) -> (String.length r < String.length s)%nat.
Proof. apply scanstring_length. Qed.

Lemma prefix_length (k s : string) :
  String.prefix k s = true ->
  String.length (String.substring (String.length k)
                   (String.length s - String.length k) s)
  = (String.length s - String.length k)%nat
  /\ (String.length k <= String.length s)%nat.
Proof.
  revert s. induction k as [|a k IH]; intros s.
  - intros _. cbn [String.length]. rewrite Nat.sub_0_r. split; [|lia].
    clear. induction s as [|c s IH]; [reflexivity|].
    cbn [String.length String.substring]. now rewrite IH.
  - destruct s as [|b s]; cbn [String.prefix]; [discriminate|].
    destruct (ascii_dec a b); [|discriminate].
    intros H. apply IH in H as [H1 H2].
    cbn [String.length String.substring Nat.sub]. split; [exact H1 | lia].
Qed.

Lemma keyword_length (k : string) (v : value) (s : string) v' r :
  (0 < String.length k)%nat ->
  keyword k v s = Some (v', r) -> (String.length r < String.length s)%nat.
Proof.
  unfold keyword. intros Hk.
  destruct (String.prefix k s) eqn:E; [|discriminate].
  intros [= <- <-]. apply prefix_length in E as [-> ?]. lia.
Qed.

Lemma match_fraction_length s ds r :
  match_fraction s = Some (ds, r) -> (String.length r <= String.length s)%nat.
Proof.
  unfold match_fraction. destruct s as [|c [|d t]]; try discriminate.
  destruct (_ && _); [|discriminate].
  destruct (span_digits t) as [fs r'] eqn:E. intros [= <- <-].
  apply span_digits_length in E. cbn [String.length]. lia.
Qed.

Lemma match_exponent_length s x r :
  match_exponent s = Some (x, r) -> (String.length r <= String.length s)%nat.
Proof.
  unfold match_exponent. destruct s as [|c t]; [discriminate|].
  destruct (_ || _); [|discriminate].
  assert (H : forall neg t1, (String.length t1 <= String.length t)%nat ->
            match span_digits t1 with
            | ([], _) => None
            | (ds, r0) => Some (cond_Zopp neg (digits_value ds), r0)
            end = Some (x, r) ->
            (String.length r <= String.length (String c t))%nat).
  { intros neg t1 Ht1. destruct (span_digits t1) as [[|a l] r0] eqn:E; [discriminate|].
    intros [= <- <-]. apply span_digits_length in E. cbn [String.length]. lia. }
  destruct t as [|sg t']; [apply (H false); lia|].
  destruct (Ascii.eqb sg "-"%char); [apply H; cbn [String.length]; lia|].
  destruct (Ascii.eqb sg "+"%char); apply H; cbn [String.length]; lia.
Qed.

Lemma match_number_length s v r :
  match_number s = Some (v, r) -> (String.length r < String.length s)%nat.
Proof.
  unfold match_number.
  set (ns := match s with
             | String c t => if Ascii.eqb c "-"%char then (true, t) else (false, s)
             | EmptyString => (false, s)
             end).
  assert (Hns : (String.length (snd ns) <= String.length s)%nat).
  { subst ns. destruct s as [|c t]; [cbn; lia|].
    destruct (Ascii.eqb c "-"%char); cbn; lia. }
  destruct ns as [neg s1]. cbn [snd] in Hns.
  destruct s1 as [|c t]; [discriminate|].
  set (integer := if Ascii.eqb c "0"%char then Some ([c], t)
                  else if is_digit c
                       then let (ds, r0) := span_digits t in Some (c :: ds, r0)
                       else None).
  assert (Hint : forall ids r1, integer = Some (ids, r1) ->
                 (String.length r1 <= String.length t)%nat).
  { subst integer. intros ids r1.
    destruct (Ascii.eqb c "0"%char); [intros [= <- <-]; lia|].
    destruct (is_digit c); [|discriminate].
    destruct (span_digits t) as [ds r0] eqn:E. intros [= <- <-].
    now apply span_digits_length in E. }
  destruct integer as [[ids r1]|]; [|discriminate].
  specialize (Hint _ _ eq_refl).
  destruct (match_fraction r1) as [[fs rf]|] eqn:Ef;
    [apply match_fraction_length in Ef|];
    (destruct (match_exponent _) as [[x re]|] eqn:Ee;
     [apply match_exponent_length in Ee|]);
    intros [= <- <-]; cbn [String.length] in *; lia.
Qed.

Lemma first_of_some {A : Type} (a b : option A) (x : A) :
  first_of a b = Some x -> a = Some x \/ b = Some x.
Proof. destruct a; cbn; auto. Qed.

Lemma scalar_length (s : string) v r :
  first_of (keyword "null" VNone s)
    (first_of (keyword "true" (VBool true) s)
    (first_of (keyword "false" (VBool false) s)
    (first_of (match_number s)
    (first_of (keyword "NaN" (VFloat S754_nan) s)
    (first_of (keyword "Infinity" (VFloat (S754_infinity false)) s)
              (keyword "-Infinity" (VFloat (S754_infinity true)) s))))))
  = Some (v, r) ->
  (String.length r < String.length s)%nat.
Proof.
  intros H.
  repeat (apply first_of_some in H as [H | H]);
    first [ now apply match_number_length in H
          | apply keyword_length in H; [exact H | cbn; lia] ].
Qed.

Lemma scan_lengths (fuel : nat) :
  (forall s, shorter s (scan_once fuel s))
  /\ (forall acc s, shorter s (parse_object fuel acc s))
  /\ (forall acc s, shorter s (parse_array fuel acc s)).
Proof.
  induction fuel as [|fuel (IHs & IHo & IHa)];
    [repeat split; intros; intros v r; discriminate|].
  repeat split.
  - intros s v r. cbn [scan_once].
    destruct s as [|c t]; [discriminate|]. cbn [String.length].
    destruct (Ascii.eqb c quote).
    { destruct (parse_string t) as [[str r']|] eqn:E; [|discriminate].
      intros [= <- <-]. apply parse_string_length in E. lia. }
    destruct (Ascii.eqb c "{"%char).
    { pose proof (skip_ws_length t) as Hw.
      destruct (skip_ws t) as [|c1 r1]; [discriminate|]. cbn [String.length] in Hw.
      destruct (Ascii.eqb c1 "}"%char); [intros [= <- <-]; lia|].
      intros H. apply IHo in H. cbn [String.length] in H. lia. }
    destruct (Ascii.eqb c "["%char).
    { pose proof (skip_ws_length t) as Hw.
      destruct (skip_ws t) as [|c1 r1]; [discriminate|]. cbn [String.length] in Hw.
      destruct (Ascii.eqb c1 "]"%char); [intros [= <- <-]; lia|].
      intros H. apply IHa in H. cbn [String.length] in H. lia. }
    intros H. apply scalar_length in H. exact H.
  - intros acc s v r. cbn [parse_object].
    destruct s as [|c t]; [discriminate|]. cbn [String.length].
    destruct (Ascii.eqb c quote); [|discriminate].
    destruct (parse_string t) as [[key r0]|] eqn:E; [|discriminate].
    apply parse_string_length in E.
    pose proof (skip_ws_length r0) as Hw0.
    destruct (skip_ws r0) as [|c1 r1]; [discriminate|]. cbn [String.length] in Hw0.
    destruct (Ascii.eqb c1 ":"%char); [|discriminate].
    pose proof (skip_ws_length r1) as Hw1.
    destruct (scan_once fuel (skip_ws r1)) as [[v2 r2]|] eqn:E2; [|discriminate].
    apply IHs in E2.
    pose proof (skip_ws_length r2) as Hw2.
    destruct (skip_ws r2) as [|c2 r3]; [discriminate|]. cbn [String.length] in Hw2.
    destruct (Ascii.eqb c2 "}"%char); [intros [= <- <-]; lia|].
    destruct (Ascii.eqb c2 ","%char); [|discriminate].
    intros H. apply IHo in H. pose proof (skip_ws_length r3). lia.
  - intros acc s v r. cbn [parse_array].
    destruct (scan_once fuel s) as [[v1 r1]|] eqn:E1; [|discriminate].
    apply IHs in E1.
    pose proof (skip_ws_length r1) as Hw1.
    destruct (skip_ws r1) as [|c r2]; [discriminate|]. cbn [String.length] in Hw1.
    destruct (Ascii.eqb c "]"%char); [intros [= <- <-]; lia|].
    destruct (Ascii.eqb c ","%char); [|discriminate].
    intros H. apply IHa in H. pose proof (skip_ws_length r2). lia.
Qed.

(** The result of the scanner does not depend on the fuel, once the fuel
    exceeds twice the length of the text. *)
Lemma scan_fuel (n : nat) :
  forall m,
    (forall s, (2 * String.length s < n)%nat -> (2 * String.length s < m)%nat ->
               scan_once n s = scan_once m s)
    /\ (forall acc s,
          (2 * String.length s < n)%nat -> (2 * String.length s < m)%nat ->
          parse_object n acc s = parse_object m acc s)
    /\ (forall acc s,
          (2 * String.length s + 1 < n)%nat -> (2 * String.length s + 1 < m)%nat ->
          parse_array n acc s = parse_array m acc s).
Proof.
  induction n as [|n IH]; intros m.
  - repeat split; intros; lia.
  - destruct m as [|m]; [repeat split; intros; lia|].
    destruct (IH m) as (IHs & IHo & IHa).
    repeat split.
    + intros s Hn Hm. cbn [scan_once].
      destruct s as [|c t]; [reflexivity|]. cbn [String.length] in *.
      destruct (Ascii.eqb c quote); [reflexivity|].
      destruct (Ascii.eqb c "{"%char).
      { pose proof (skip_ws_length t) as Hw.
        destruct (skip_ws t) as [|c1 r1]; [reflexivity|].
        destruct (Ascii.eqb c1 "}"%char); [reflexivity|].
        apply IHo; lia. }
      destruct (Ascii.eqb c "["%char); [|reflexivity].
      pose proof (skip_ws_length t) as Hw.
      destruct (skip_ws t) as [|c1 r1]; [reflexivity|].
      destruct (Ascii.eqb c1 "]"%char); [reflexivity|].
      apply IHa; lia.
    + intros acc s Hn Hm. cbn [parse_object].
      destruct s as [|c t]; [reflexivity|]. cbn [String.length] in *.
      destruct (Ascii.eqb c quote); [|reflexivity].
      destruct (parse_string t) as [[key r0]|] eqn:E; [|reflexivity].
      apply parse_string_length in E.
      pose proof (skip_ws_length r0) as Hw0.
      destruct (skip_ws r0) as [|c1 r1]; [reflexivity|]. cbn [String.length] in Hw0.
      destruct (Ascii.eqb c1 ":"%char); [|reflexivity].
      pose proof (skip_ws_length r1) as Hw1.
      rewrite (IHs (skip_ws r1)) by lia.
      destruct (scan_once m (skip_ws r1)) as [[v2 r2]|] eqn:E2; [|reflexivity].
      apply (proj1 (scan_lengths m)) in E2.
      pose proof (skip_ws_length r2) as Hw2.
      destruct (skip_ws r2) as [|c2 r3]; [reflexivity|]. cbn [String.length] in Hw2.
      destruct (Ascii.eqb c2 "}"%char); [reflexivity|].
      destruct (Ascii.eqb c2 ","%char); [|reflexivity].
      pose proof (skip_ws_length r3). apply IHo; lia.
    + intros acc s Hn Hm. cbn [parse_array].
      rewrite (IHs s) by lia.
      destruct (scan_once m s) as [[v1 r1]|] eqn:E1; [|reflexivity].
      apply (proj1 (scan_lengths m)) in E1.
      pose proof (skip_ws_length r1) as Hw1.
      destruct (skip_ws r1) as [|c r2]; [reflexivity|]. cbn [String.length] in Hw1.
      destruct (Ascii.eqb c "]"%char); [reflexivity|].
      destruct (Ascii.eqb c ","%char); [|reflexivity].
      pose proof (skip_ws_length r2). apply IHa; lia.
Qed.

(** More fuel than [loads] gives the scanner changes nothing. *)
Lemma loads_fuel (s : string) (fuel : nat) :
  (2 * String.length s < fuel)%nat ->
  scan_once fuel (skip_ws s) = scan_once (S (2 * String.length s)) (skip_ws s).
Proof.
  intros H. pose proof (skip_ws_length s).
  apply (proj1 (scan_fuel fuel (S (2 * String.length s)))); lia.
Qed.

(** ** The decoder *)

Lemma prefix_iff_append (p s : string) :
  String.prefix p s = true <-> exists rest, s = (p ++ rest)%string.
Proof.
  revert s. induction p as [|a p IH]; intros s.
  - split; [intros _; now exists s | intros _; now destruct s].
  - destruct s as [|b s]; cbn [String.prefix].
    + split; [discriminate | intros [rest H]; discriminate H].
    + destruct (ascii_dec a b) as [->|Hab].
      * rewrite IH. split; intros [rest H]; exists rest.
        -- cbn. now rewrite H.
        -- cbn in H. now injection H.
      * split; [discriminate|]. intros [rest H]. cbn in H.
        injection H as H _. now elim Hab.
Qed.

(** On a link with the scheme, [decode_vmess] is the [try] block with its
    exceptions wrapped. *)
Lemma decode_vmess_scheme (payload : string) :
  decode_vmess ("vmess://" ++ payload)%string =
  match decode_content payload with
  | Ok config => Ok config
  | Raise e => Raise (ValueError (msg_parse e))
  end.
Proof. now destruct payload. Qed.

Lemma decode_vmess_no_scheme (link : string) :
  String.prefix "vmess://" link = false ->
  decode_vmess link = Raise (ValueError msg_scheme).
Proof. intros H. unfold decode_vmess. now rewrite H. Qed.

(** ** The mapper *)

Lemma generate_clash_config_dict (d : dict) :
  generate_clash_config (VDict d) =
  (lowered <- lower (resolved_security d) ;;
   port <- int (get_or d "port" (VInt 443)) ;;
   alterId <- int (get_or d "aid" (VInt 0)) ;;
   Ok (document_of d port alterId lowered)).
Proof.
  unfold generate_clash_config, document_of, resolved_security, get.
  fold (get_or d "ps" (VStr "Vmess节点")). fold (get_or d "scy" (VStr "auto")).
  fold (get_or d "security" (VStr "auto")).
  fold (get_or d "add" (VStr EmptyString)). fold (get_or d "port" (VInt 443)).
  fold (get_or d "id" (VStr EmptyString)). fold (get_or d "aid" (VInt 0)).
  fold (get_or d "tls" (VStr EmptyString)). fold (get_or d "net" (VStr "tcp")).
  fold (get_or d "path" (VStr "/")). fold (get_or d "host" (VStr EmptyString)).
  cbn [bind].
  destruct (truthy (get_or d "scy" (VStr "auto"))); cbn [bind];
    (destruct (lower _) as [lowered|e]; cbn [bind]; [|reflexivity]);
    (destruct (int (get_or d "port" (VInt 443))) as [port|e]; cbn [bind];
     [|reflexivity]);
    (destruct (int (get_or d "aid" (VInt 0))) as [alterId|e]; cbn [bind];
     [|reflexivity]);
    unfold proxy_entry, getitem;
    cbn [dict_lookup String.eqb Ascii.eqb Bool.eqb bind];
  destruct (eq_str (get_or d "net" (VStr "tcp")) "ws"); reflexivity.
Qed.

Lemma generate_clash_config_not_dict (v : value) :
  (forall d, v <> VDict d) -> generate_clash_config v = Raise AttributeError.
Proof.
  intros H. destruct v; try reflexivity. now elim (H d).
Qed.

(** A successful mapping, read backwards. *)
Lemma generate_clash_config_ok (vmess_config doc : value) :
  generate_clash_config vmess_config = Ok doc ->
  exists d lowered port alterId,
    vmess_config = VDict d
    /\ lower (resolved_security d) = Ok lowered
    /\ int (get_or d "port" (VInt 443)) = Ok port
    /\ int (get_or d "aid" (VInt 0)) = Ok alterId
    /\ doc = document_of d port alterId lowered.
Proof.
  intros H.
  destruct vmess_config as [| | | | | |d]; try discriminate H.
  rewrite generate_clash_config_dict in H.
  destruct (lower (resolved_security d)) as [lowered|] eqn:El;
    [|discriminate H].
  destruct (int (get_or d "port" (VInt 443))) as [port|] eqn:Ep;
    [|discriminate H].
  destruct (int (get_or d "aid" (VInt 0))) as [alterId|] eqn:Ea;
    [|discriminate H].
  cbn [bind] in H. injection H as <-.
  now exists d, lowered, port, alterId.
Qed.

(** *** Reading the returned document *)

Lemma doc_proxies_document (proxy proxy_name : value) :
  doc_proxies (document proxy proxy_name) = [proxy].
Proof. reflexivity. Qed.

Lemma doc_groups_document (proxy proxy_name : value) :
  doc_groups (document proxy proxy_name) =
  [select_group proxy_name; url_test_group proxy_name].
Proof. reflexivity. Qed.

Lemma members_select_group (proxy_name : value) :
  members (select_group proxy_name) = [VStr "自动选择"; proxy_name].
Proof. reflexivity. Qed.

Lemma members_url_test_group (proxy_name : value) :
  members (url_test_group proxy_name) = [proxy_name].
Proof. reflexivity. Qed.

Lemma proxy_entry_name (d : dict) port alterId cipher :
  field "name" (VDict (proxy_entry d port alterId cipher)) =
  Some (get_or d "ps" (VStr "Vmess节点")).
Proof. reflexivity. Qed.

Lemma proxy_entry_cipher (d : dict) port alterId cipher :
  field "cipher" (VDict (proxy_entry d port alterId cipher)) = Some cipher.
Proof. reflexivity. Qed.

Lemma proxy_entry_ws_opts (d : dict) port alterId cipher :
  field "ws-opts" (VDict (proxy_entry d port alterId cipher)) =
  if eq_str (get_or d "net" (VStr "tcp")) "ws" then Some (ws_opts d) else None.
Proof.
  unfold proxy_entry.
  destruct (eq_str (get_or d "net" (VStr "tcp")) "ws"); reflexivity.
Qed.

Lemma eq_str_true_iff (v : value) (s : string) :
  eq_str v s = true <-> v = VStr s.
Proof.
  destruct v; cbn [eq_str]; try (split; discriminate).
  rewrite String.eqb_eq. split; [now intros -> | now intros [= ->]].
Qed.

Lemma get_or_agree (d1 d2 : dict) (k : string) (default : value) :
  dict_lookup k d1 = dict_lookup k d2 -> get_or d1 k default = get_or d2 k default.
Proof. unfold get_or. now intros ->. Qed.

(** Without the key [scy] the key [security] is never read: line 73 takes
    the default ["auto"] of the first [get], which is true. *)
Lemma resolved_security_without_scy (d : dict) :
  dict_lookup "scy" d = None -> resolved_security d = VStr "auto".
Proof. unfold resolved_security, get_or. now intros ->. Qed.

(** With a true value under [scy], that value is the one resolved. *)
Lemma resolved_security_scy (d : dict) (v : value) :
  dict_lookup "scy" d = Some v -> truthy v = true -> resolved_security d = v.
Proof. unfold resolved_security, get_or. now intros -> ->. Qed.

(** The cipher of the produced entry: the resolved value, with any
    spelling of ["zero"] replaced by ["auto"]. *)
Lemma cipher_of_mapping (d : dict) (doc : value) :
  generate_clash_config (VDict d) = Ok doc ->
  exists proxy s,
    doc_proxies doc = [proxy]
    /\ resolved_security d = VStr s
    /\ field "cipher" proxy =
       Some (if String.eqb (str_lower s) "zero" then VStr "auto" else VStr s).
Proof.
  intros H. apply generate_clash_config_ok in H
    as (d' & lowered & port & alterId & [= <-] & Hl & _ & _ & ->).
  destruct (resolved_security d) as [| | | |s| |] eqn:Es; try discriminate Hl.
  injection Hl as <-.
  eexists _, s. unfold document_of. rewrite doc_proxies_document, Es.
  now rewrite proxy_entry_cipher.
Qed.

(** The mapper succeeds on a record exactly when the resolved cipher is a
    [str] and both integer coercions succeed. *)
Lemma generate_clash_config_succeeds_iff (d : dict) :
  succeeds (generate_clash_config (VDict d)) <->
  (exists s, resolved_security d = VStr s)
  /\ succeeds (int (get_or d "port" (VInt 443)))
  /\ succeeds (int (get_or d "aid" (VInt 0))).
Proof.
  split.
  - intros [doc H]. apply generate_clash_config_ok in H
      as (d' & lowered & port & alterId & [= <-] & Hl & Hp & Ha & _).
    repeat split; [|now exists port|now exists alterId].
    destruct (resolved_security d); try discriminate Hl. now eexists.
  - intros ([s Hs] & [port Hp] & [alterId Ha]).
    rewrite generate_clash_config_dict, Hs, Hp, Ha. cbn [lower bind].
    now eexists.
Qed.

(* ================================================================= *)
(** * The claims of the specification *)

(** C1.  The specification resolves the cipher as: the value of [scy]; if
    [scy] is absent, the value of [security]; if both are absent, "auto".
    On the record that has [security] = "aes-128-gcm" and no [scy] the
    function does not return that cipher: the produced entry has cipher
    "auto", because the first [get] of line 73 already returns its default
    "auto" and the [or] never reaches the key [security]. *)
Theorem C1_security_ignored_when_scy_absent :
  exists doc proxy,
    generate_clash_config (VDict [("security", VStr "aes-128-gcm")]) = Ok doc
    /\ doc_proxies doc = [proxy]
    /\ field "cipher" proxy = Some (VStr "auto").
Proof.
  eexists _, _. repeat split.
Qed.

(** C2, as stated, fails: on the record whose [port] is the text "abc" the
    integer coercion of line 81 raises, and the mapper returns nothing. *)
Lemma C2_mapper_raises_on_bad_port :
  ~ succeeds (generate_clash_config (VDict [("port", VStr "abc")])).
Proof.
  intros [doc H]. discriminate H.
Qed.

(** C2, amended.  For every record whose [port] and [aid] values, when
    present, are accepted by the integer coercion, and whose resolved
    cipher value is a string, the mapper succeeds and returns a document;
    every missing key is covered by its default. *)
Theorem C2_mapper_succeeds (d : dict) :
  (exists s, resolved_security d = VStr s) ->
  succeeds (int (get_or d "port" (VInt 443))) ->
  succeeds (int (get_or d "aid" (VInt 0))) ->
  succeeds (generate_clash_config (VDict d)).
Proof.
  intros [s Hs] [port Hp] [alterId Ha].
  rewrite generate_clash_config_dict, Hs, Hp, Ha.
  cbn [lower bind]. now eexists.
Qed.

(** The empty record: every field comes from its default. *)
Lemma C2_mapper_succeeds_on_empty_record :
  succeeds (generate_clash_config (VDict [])).
Proof.
  apply (C2_mapper_succeeds []).
  - exists "auto". reflexivity.
  - exists 443%Z. reflexivity.
  - exists 0%Z. reflexivity.
Defined.

(** C3, as stated, fails: the JSON object payload [{}] encodes to [e30=];
    with the padding [decode_vmess] returns the empty record, without it
    the base64 decoding raises "Incorrect padding" and [decode_vmess]
    fails. *)
Lemma C3_stripped_padding_is_rejected :
  let payload := encode_utf8 "{}" in
  Json.loads "{}" = Ok (VDict [])
  /\ decode_vmess (vmess_link_of (b64encode payload)) = Ok (VDict [])
  /\ ~ succeeds (decode_vmess (vmess_link_of (strip_padding (b64encode payload)))).
Proof.
  repeat split. intros [record H]. discriminate H.
Qed.

(** C3, amended.  For every JSON object payload, [decode_vmess] succeeds
    on "vmess://" followed by the base64 encoding of the payload with its
    padding, and returns the record of the payload.  With the padding
    stripped it returns the same record when the encoding had no padding
    (the payload length is a multiple of three), and fails with the
    decode error that carries the base64 error otherwise. *)
Theorem C3_padded_and_stripped_links
  (payload : list byte) (text : string) (record : dict) :
  Utf8.decode payload = Ok text ->
  Json.loads text = Ok (VDict record) ->
  decode_vmess (vmess_link_of (b64encode payload)) = Ok (VDict record)
  /\ decode_vmess (vmess_link_of (strip_padding (b64encode payload))) =
     if (List.length payload mod 3 =? 0)%nat then Ok (VDict record)
     else Raise (ValueError (msg_parse BinasciiError)).
Proof.
  intros Htext Hjson. unfold vmess_link_of.
  rewrite !decode_vmess_scheme. unfold decode_content.
  rewrite b64decode_b64encode, b64decode_stripped.
  split.
  - cbn [bind]. rewrite Htext. cbn [bind]. now rewrite Hjson.
  - destruct (List.length payload mod 3 =? 0)%nat; cbn [bind].
    + rewrite Htext. cbn [bind]. now rewrite Hjson.
    + reflexivity.
Qed.

(** The payload [{}], whose encoding [e30=] carries padding. *)
Lemma C3_padded_and_stripped_links_example :
  let payload := encode_utf8 "{}" in
  decode_vmess (vmess_link_of (b64encode payload)) = Ok (VDict [])
  /\ decode_vmess (vmess_link_of (strip_padding (b64encode payload))) =
     if (List.length payload mod 3 =? 0)%nat then Ok (VDict [])
     else Raise (ValueError (msg_parse BinasciiError)).
Proof.
  apply (C3_padded_and_stripped_links (encode_utf8 "{}") "{}" []);
    reflexivity.
Defined.

(** C4, as stated, fails: the payload [e!3!0=] is not well-formed base64,
    yet [decode_vmess] returns a record for it, because the decoder
    skips the characters outside the alphabet. *)
Lemma C4_malformed_base64_is_accepted :
  b64_wellformed (list_byte_of_string "e!3!0=") = false
  /\ decode_vmess "vmess://e!3!0=" = Ok (VDict []).
Proof.
  split; reflexivity.
Qed.

(** C4, amended.  For every link that starts with "vmess://": when the
    base64 decoding of the payload raises (a character that is not ASCII,
    or alphabet characters that end inside a group of four without its
    padding), or the decoded bytes are not valid UTF-8, or the decoded
    text is not valid JSON, [decode_vmess] returns no record and fails
    with the one kind [DecodeError], which carries the cause. *)
Theorem C4_decode_failures (payload : string) (cause : exception) :
  b64decode payload = Raise cause
  \/ (exists raw, b64decode payload = Ok raw /\ Utf8.decode raw = Raise cause)
  \/ (exists raw text,
         b64decode payload = Ok raw /\ Utf8.decode raw = Ok text
         /\ Json.loads text = Raise cause) ->
  decode_vmess ("vmess://" ++ payload)%string = Raise (ValueError (msg_parse cause))
  /\ DecodeError (ValueError (msg_parse cause))
  /\ ~ InvalidSchemeError (ValueError (msg_parse cause)).
Proof.
  intros H. rewrite decode_vmess_scheme. unfold decode_content.
  repeat split.
  - destruct H as [Hb | [(raw & Hb & Hu) | (raw & text & Hb & Hu & Hj)]].
    + now rewrite Hb.
    + rewrite Hb. cbn [bind]. now rewrite Hu.
    + rewrite Hb. cbn [bind]. rewrite Hu. cbn [bind]. now rewrite Hj.
  - now exists cause.
  - discriminate.
Qed.

(** The payload [e30]: three alphabet characters and no padding. *)
Lemma C4_decode_failures_example :
  decode_vmess "vmess://e30" = Raise (ValueError (msg_parse BinasciiError))
  /\ DecodeError (ValueError (msg_parse BinasciiError))
  /\ ~ InvalidSchemeError (ValueError (msg_parse BinasciiError)).
Proof.
  apply (C4_decode_failures "e30" BinasciiError).
  left. reflexivity.
Defined.

(** C5, as stated, fails: in the document produced for the empty record
    the group "PROXY" lists "自动选择", which is the name of the other
    group and of no entry of the proxies sequence. *)
Lemma C5_member_that_is_not_a_proxy :
  exists doc g m,
    generate_clash_config (VDict []) = Ok doc
    /\ In g (doc_groups doc) /\ In m (members g)
    /\ ~ names_proxy doc m.
Proof.
  exists (document_of [] 443 0 "auto"), (select_group (VStr "Vmess节点")),
    (VStr "自动选择").
  repeat split.
  - left. reflexivity.
  - left. reflexivity.
  - intros (p & [<- | []] & Hname). discriminate Hname.
Qed.

(** C5, amended.  For every input record on which the mapper succeeds,
    every name in the member list of a proxy-group is the name of an
    entry of the proxies sequence or the name of a proxy-group of the
    document (the automatic group, which the group "PROXY" lists). *)
Theorem C5_members_are_names_of_the_document (vmess_config doc : value) :
  generate_clash_config vmess_config = Ok doc ->
  forall g m,
    In g (doc_groups doc) -> In m (members g) ->
    names_proxy doc m \/ (names_group doc m /\ m = VStr "自动选择").
Proof.
  intros H g m Hg Hm.
  apply generate_clash_config_ok in H
    as (d & lowered & port & alterId & -> & _ & _ & _ & ->).
  unfold document_of in *.
  assert (Hproxy : names_proxy
                     (document (VDict (proxy_entry d port alterId
                                         (cipher_of (resolved_security d) lowered)))
                        (get_or d "ps" (VStr "Vmess节点")))
                     (get_or d "ps" (VStr "Vmess节点"))).
  { eexists. rewrite doc_proxies_document. split; [left; reflexivity|].
    apply proxy_entry_name. }
  rewrite doc_groups_document in Hg.
  destruct Hg as [<- | [<- | []]].
  - rewrite members_select_group in Hm.
    destruct Hm as [<- | [<- | []]]; [right | left; exact Hproxy].
    split; [|reflexivity].
    eexists. rewrite doc_groups_document.
    split; [right; left; reflexivity | reflexivity].
  - rewrite members_url_test_group in Hm.
    destruct Hm as [<- | []]. left. exact Hproxy.
Qed.

(** The member "自动选择" of the group "PROXY", for the empty record. *)
Lemma C5_members_example :
  names_proxy (document_of [] 443 0 "auto") (VStr "自动选择")
  \/ (names_group (document_of [] 443 0 "auto") (VStr "自动选择")
      /\ VStr "自动选择" = VStr "自动选择").
Proof.
  apply (C5_members_are_names_of_the_document (VDict [])
           (document_of [] 443 0 "auto") eq_refl
           (select_group (VStr "Vmess节点")) (VStr "自动选择")).
  - left. reflexivity.
  - left. reflexivity.
Defined.

(** C6.  For every string that does not start with the literal prefix
    "vmess://", [decode_vmess] fails with [InvalidSchemeError] and returns
    nothing; for every string that starts with it, the failure of
    [decode_vmess], if any, is not [InvalidSchemeError]. *)
Theorem C6_scheme_check (link : string) :
  (exists e, decode_vmess link = Raise e /\ InvalidSchemeError e)
  <-> ~ (exists rest, link = ("vmess://" ++ rest)%string).
Proof.
  rewrite <- prefix_iff_append.
  destruct (String.prefix "vmess://" link) eqn:Hp.
  - split; [|intros H; now elim H].
    intros (e & He & ->) _.
    apply prefix_iff_append in Hp as [rest ->].
    rewrite decode_vmess_scheme in He.
    destruct (decode_content rest); discriminate He.
  - split; [intros _; discriminate|].
    intros _. exists (ValueError msg_scheme).
    split; [now apply decode_vmess_no_scheme | reflexivity].
Qed.

(** C7.  For every input record, the produced proxy entry carries a
    transport-options structure if and only if the record's [net] value
    (default "tcp") equals "ws"; the structure then has the record's
    [path] value (default "/") as its path, and a header mapping with the
    single entry [host], the record's [host] value (default the empty
    string). *)
Theorem C7_transport_options (d : dict) (doc : value) :
  generate_clash_config (VDict d) = Ok doc ->
  exists proxy,
    doc_proxies doc = [proxy]
    /\ (field "ws-opts" proxy <> None <-> get_or d "net" (VStr "tcp") = VStr "ws")
    /\ (get_or d "net" (VStr "tcp") = VStr "ws" ->
        field "ws-opts" proxy =
        Some (VDict [("path", get_or d "path" (VStr "/"));
                     ("headers",
                       VDict [("host", get_or d "host" (VStr EmptyString))])])).
Proof.
  intros H. apply generate_clash_config_ok in H
    as (d' & lowered & port & alterId & [= <-] & _ & _ & _ & ->).
  eexists. unfold document_of. rewrite doc_proxies_document.
  split; [reflexivity|].
  rewrite proxy_entry_ws_opts, <- eq_str_true_iff.
  destruct (eq_str (get_or d "net" (VStr "tcp")) "ws").
  - split; [split; [reflexivity | discriminate] | reflexivity].
  - split; [split; [intros K; now elim K | discriminate] | discriminate].
Qed.

(** The record of the specification: net "ws", path "/ws", host
    "example.com". *)
Lemma C7_transport_options_example :
  let d := [("net", VStr "ws"); ("path", VStr "/ws"); ("host", VStr "example.com")] in
  exists proxy,
    doc_proxies (document_of d 443 0 "auto") = [proxy]
    /\ (field "ws-opts" proxy <> None <-> get_or d "net" (VStr "tcp") = VStr "ws")
    /\ (get_or d "net" (VStr "tcp") = VStr "ws" ->
        field "ws-opts" proxy =
        Some (VDict [("path", get_or d "path" (VStr "/"));
                     ("headers",
                       VDict [("host", get_or d "host" (VStr EmptyString))])])).
Proof.
  apply (C7_transport_options
           [("net", VStr "ws"); ("path", VStr "/ws"); ("host", VStr "example.com")]).
  reflexivity.
Defined.

(** C8.  The end-to-end example: the JSON text of the specification,
    base64-encoded and prefixed with "vmess://", is decoded to a record
    that the mapper turns into a document whose single proxy entry has
    name "Test", server "1.2.3.4", integer port 10086, uuid "abc-123",
    integer alterId 0, network "ws", tls true, cipher "auto", and
    transport options with path "/path" and host header "a.com". *)
Theorem C8_end_to_end :
  vmess_link_of (b64encode (encode_utf8 example_record_text)) = example_link
  /\ exists record doc,
       decode_vmess example_link = Ok record
       /\ generate_clash_config record = Ok doc
       /\ convert example_link = Ok doc
       /\ doc_proxies doc = [example_proxy]
       /\ field "name" example_proxy = Some (VStr "Test")
       /\ field "server" example_proxy = Some (VStr "1.2.3.4")
       /\ field "port" example_proxy = Some (VInt 10086)
       /\ field "uuid" example_proxy = Some (VStr "abc-123")
       /\ field "alterId" example_proxy = Some (VInt 0)
       /\ field "network" example_proxy = Some (VStr "ws")
       /\ field "tls" example_proxy = Some (VBool true)
       /\ field "cipher" example_proxy = Some (VStr "auto")
       /\ field "ws-opts" example_proxy =
          Some (VDict [("path", VStr "/path");
                       ("headers", VDict [("host", VStr "a.com")])]).
Proof.
  split; [vm_compute; reflexivity|].
  eexists _, _.
  split; [vm_compute; reflexivity|].
  split; [vm_compute; reflexivity|].
  repeat split; vm_compute; reflexivity.
Qed.

(** C9.  For every input record on which the mapper succeeds, the
    document has exactly the two default proxy-groups, the manual
    "PROXY" group of type select and the automatic group of type
    url-test; the name of the produced proxy is in the member list of
    both, and the member list of "PROXY" also has the name of the
    automatic group. *)
Theorem C9_group_membership (vmess_config doc : value) :
  generate_clash_config vmess_config = Ok doc ->
  exists proxy proxy_name manual automatic,
    doc_proxies doc = [proxy]
    /\ field "name" proxy = Some proxy_name
    /\ doc_groups doc = [manual; automatic]
    /\ field "name" manual = Some (VStr "PROXY")
    /\ field "type" manual = Some (VStr "select")
    /\ field "name" automatic = Some (VStr "自动选择")
    /\ field "type" automatic = Some (VStr "url-test")
    /\ members manual = [VStr "自动选择"; proxy_name]
    /\ members automatic = [proxy_name]
    /\ In proxy_name (members manual)
    /\ In proxy_name (members automatic)
    /\ (exists automatic_name,
           field "name" automatic = Some automatic_name
           /\ In automatic_name (members manual)).
Proof.
  intros H. apply generate_clash_config_ok in H
    as (d & lowered & port & alterId & -> & _ & _ & _ & ->).
  unfold document_of.
  eexists _, (get_or d "ps" (VStr "Vmess节点")), _, _.
  rewrite doc_proxies_document, doc_groups_document, proxy_entry_name.
  rewrite members_select_group, members_url_test_group.
  repeat split; try reflexivity.
  - right; left; reflexivity.
  - left; reflexivity.
  - eexists. split; [reflexivity | left; reflexivity].
Qed.

(** A record that only names its node. *)
Lemma C9_group_membership_example :
  exists proxy proxy_name manual automatic,
    doc_proxies (document_of [("ps", VStr "Node")] 443 0 "auto") = [proxy]
    /\ field "name" proxy = Some proxy_name
    /\ doc_groups (document_of [("ps", VStr "Node")] 443 0 "auto")
       = [manual; automatic]
    /\ field "name" manual = Some (VStr "PROXY")
    /\ field "type" manual = Some (VStr "select")
    /\ field "name" automatic = Some (VStr "自动选择")
    /\ field "type" automatic = Some (VStr "url-test")
    /\ members manual = [VStr "自动选择"; proxy_name]
    /\ members automatic = [proxy_name]
    /\ In proxy_name (members manual)
    /\ In proxy_name (members automatic)
    /\ (exists automatic_name,
           field "name" automatic = Some automatic_name
           /\ In automatic_name (members manual)).
Proof.
  apply (C9_group_membership (VDict [("ps", VStr "Node")])).
  reflexivity.
Defined.

(** C10.  The output of the mapper depends only on the eleven keys ps,
    scy, security, add, port, id, aid, tls, net, path and host: two
    records that give these keys the same values (or both leave a key
    out) are mapped to the same result; and the proxies sequence of a
    produced document has exactly one entry. *)
Theorem C10_only_mapped_keys_matter (d1 d2 : dict) :
  (forall k, In k mapped_keys -> dict_lookup k d1 = dict_lookup k d2) ->
  generate_clash_config (VDict d1) = generate_clash_config (VDict d2)
  /\ (forall doc,
        generate_clash_config (VDict d1) = Ok doc ->
        List.length (doc_proxies doc) = 1%nat).
Proof.
  intros Hagree. split.
  - assert (G : forall k v, In k mapped_keys -> get_or d1 k v = get_or d2 k v).
    { intros k v Hk. apply get_or_agree, Hagree, Hk. }
    rewrite !generate_clash_config_dict.
    unfold document_of, proxy_entry, ws_opts, resolved_security.
    rewrite (G "ps"), (G "scy"), (G "security"), (G "add"), (G "port"),
      (G "id"), (G "aid"), (G "tls"), (G "net"), (G "path"), (G "host");
      (reflexivity || (cbn; tauto)).
  - intros doc H. apply generate_clash_config_ok in H
      as (d & lowered & port & alterId & _ & _ & _ & _ & ->).
    reflexivity.
Qed.

(** Two records that differ in keys the mapper does not read, and in the
    order of their keys. *)
Lemma C10_only_mapped_keys_matter_example :
  let d1 := [("ps", VStr "A"); ("v", VStr "2")] in
  let d2 := [("type", VStr "none"); ("ps", VStr "A")] in
  generate_clash_config (VDict d1) = generate_clash_config (VDict d2)
  /\ (forall doc,
        generate_clash_config (VDict d1) = Ok doc ->
        List.length (doc_proxies doc) = 1%nat).
Proof.
  apply (C10_only_mapped_keys_matter
           [("ps", VStr "A"); ("v", VStr "2")]
           [("type", VStr "none"); ("ps", VStr "A")]).
  intros k Hk. cbn in Hk.
  repeat (destruct Hk as [<- | Hk]; [reflexivity|]).
  destruct Hk.
Defined.

(** ** Examples *)

(** The scheme is matched exactly: another spelling of the prefix is
    rejected before any decoding. *)
Example decode_vmess_scheme_is_case_sensitive :
  decode_vmess "Vmess://e30=" = Raise (ValueError msg_scheme)
  /\ decode_vmess "vmess://e30=" = Ok (VDict []).
Proof. split; reflexivity. Qed.

(** A top-level JSON value that is not an object is returned as it is,
    and it is the mapper that fails on it. *)
Example decode_vmess_returns_a_list :
  decode_vmess "vmess://W10=" = Ok (VList [])
  /\ convert "vmess://W10=" = Raise AttributeError.
Proof. split; reflexivity. Qed.

(** Any spelling of "zero" under [scy] becomes the cipher "auto", and
    another cipher passes through. *)
Example cipher_normalization :
  generate_clash_config (VDict [("scy", VStr "ZeRo")])
  = Ok (document_of [("scy", VStr "ZeRo")] 443 0 "zero")
  /\ field "cipher"
       (VDict (proxy_entry [("scy", VStr "ZeRo")] 443 0
                 (cipher_of (VStr "ZeRo") "zero")))
     = Some (VStr "auto")
  /\ field "cipher"
       (VDict (proxy_entry [("scy", VStr "aes-128-gcm")] 443 0
                 (cipher_of (VStr "aes-128-gcm") (str_lower "aes-128-gcm"))))
     = Some (VStr "aes-128-gcm").
Proof. repeat split. Qed.

(** An empty [scy] is the one case in which the key [security] is read. *)
Example security_read_when_scy_is_empty :
  resolved_security [("scy", VStr EmptyString); ("security", VStr "none")]
  = VStr "none".
Proof. reflexivity. Qed.

(* ================================================================= *)
(** * Further properties of the code *)

(** ** [decode_vmess] *)

(** The decoding loop raises nothing but [binascii.Error]. *)
Lemma a2b_loop_raises (l : list byte) :
  forall quad_pos leftchar pads bin_data e,
    a2b_loop l quad_pos leftchar pads bin_data = Raise e -> e = BinasciiError.
Proof.
  induction l as [|c t IH]; intros q lc p out e; cbn [a2b_loop].
  - destruct (q =? 0)%nat; [discriminate | now intros [= <-]].
  - destruct (Byte.eqb c BASE64_PAD).
    + destruct (2 <=? q)%nat; [|apply IH].
      destruct (4 <=? q + S p)%nat; [discriminate | apply IH].
    + destruct (a2b c) as [v|]; [|apply IH].
      destruct q as [|[|[|q]]]; apply IH.
Qed.







(** A character that is neither in the alphabet nor the padding
    character is skipped by the loop, wherever it stands. *)
Lemma a2b_loop_skips (l1 l2 : list byte) (c : byte) :
  Byte.eqb c BASE64_PAD = false -> a2b c = None ->
  forall quad_pos leftchar pads bin_data,
    a2b_loop (l1 ++ c :: l2) quad_pos leftchar pads bin_data =
    a2b_loop (l1 ++ l2) quad_pos leftchar pads bin_data.
Proof.
  intros Hpad Hc. induction l1 as [|x t IH]; intros q lc p out; cbn [app a2b_loop].
  - now rewrite Hpad, Hc.
  - destruct (Byte.eqb x BASE64_PAD).
    + destruct (2 <=? q)%nat; [|apply IH].
      destruct (4 <=? q + S p)%nat; [reflexivity | apply IH].
    + destruct (a2b x) as [v|]; [|apply IH].
      destruct q as [|[|[|q]]]; apply IH.
Qed.

Lemma decode_vmess_link_of (encoded : list byte) :
  decode_vmess (vmess_link_of encoded) =
  match decode_content (string_of_list_byte encoded) with
  | Ok config => Ok config
  | Raise e => Raise (ValueError (msg_parse e))
  end.
Proof. unfold vmess_link_of. apply decode_vmess_scheme. Qed.

(** X2.  An ASCII character that is neither in the base64 alphabet nor
    ['='] (a space, a line break, ...) changes nothing, wherever it
    stands in the payload: the link decodes as it does without it. *)
Theorem decode_vmess_skips_foreign_characters (l1 l2 : list byte) (c : byte) :
  is_ascii c = true -> in_alphabet c = false -> c <> BASE64_PAD ->
  decode_vmess (vmess_link_of (l1 ++ c :: l2)) =
  decode_vmess (vmess_link_of (l1 ++ l2)).
Proof.
  intros Hascii Hc Hpad. rewrite !decode_vmess_link_of.
  unfold decode_content, b64decode, a2b_base64.
  rewrite !list_byte_of_string_of_list_byte.
  rewrite !forallb_app. cbn [forallb]. rewrite Hascii. cbn [andb].
  rewrite a2b_loop_skips; [reflexivity | |].
  - destruct (Byte.eqb c BASE64_PAD) eqn:E; [|reflexivity].
    now apply Byte.byte_dec_bl in E.
  - unfold in_alphabet in Hc. now destruct (a2b c).
Qed.

Lemma decode_vmess_skips_foreign_characters_example :
  decode_vmess (vmess_link_of (list_byte_of_string "e3" ++ " "%byte :: list_byte_of_string "0="))
  = decode_vmess (vmess_link_of (list_byte_of_string "e3" ++ list_byte_of_string "0=")).
Proof.
  apply (decode_vmess_skips_foreign_characters
           (list_byte_of_string "e3") (list_byte_of_string "0=") " "%byte).
  - reflexivity.
  - reflexivity.
  - discriminate.
Defined.

(** After a padded last group the loop stops: what follows is not read. *)
Lemma a2b_loop_padded (data junk : list byte) :
  (List.length data mod 3 <> 0)%nat ->
  forall leftchar pads bin_data,
    a2b_loop (b64encode data ++ junk) 0 leftchar pads bin_data =
    Ok (bin_data ++ data).
Proof.
  induction data as [|x|x y|x y z rest IH] using list_ind_by_three;
    intros Hlen leftchar pads bin_data; cbn [b64encode app].
  - now elim Hlen.
  - rewrite a2b_loop_two by reflexivity. reflexivity.
  - rewrite a2b_loop_two by apply to_N_lt_256.
    rewrite a2b_loop_third by reflexivity.
    cbn. now rewrite <- app_assoc.
  - rewrite length_three_more in Hlen.
    rewrite a2b_loop_group, IH by exact Hlen. now rewrite <- app_assoc.
Qed.

(** X3.  When the encoded payload ends with padding, ASCII text that
    follows it is not read: the link decodes as it does without that
    text. *)
Theorem decode_vmess_ignores_text_after_padding (data junk : list byte) :
  (List.length data mod 3 <> 0)%nat ->
  forallb is_ascii junk = true ->
  decode_vmess (vmess_link_of (b64encode data ++ junk)) =
  decode_vmess (vmess_link_of (b64encode data)).
Proof.
  intros Hlen Hjunk. rewrite !decode_vmess_link_of.
  unfold decode_content. rewrite b64decode_b64encode.
  unfold b64decode, a2b_base64.
  rewrite list_byte_of_string_of_list_byte, forallb_app, b64encode_ascii, Hjunk.
  cbn [andb]. now rewrite (a2b_loop_padded data junk Hlen).
Qed.

Lemma decode_vmess_ignores_text_after_padding_example :
  decode_vmess (vmess_link_of (b64encode (encode_utf8 "{}") ++ list_byte_of_string "#fragment"))
  = decode_vmess (vmess_link_of (b64encode (encode_utf8 "{}"))).
Proof.
  apply (decode_vmess_ignores_text_after_padding
           (encode_utf8 "{}") (list_byte_of_string "#fragment")).
  - discriminate.
  - reflexivity.
Defined.

(** X4.  A payload that consists of alphabet characters only and whose
    length is not a multiple of four is rejected with the decode error
    that carries the base64 error. *)
Theorem decode_vmess_rejects_incomplete_group (payload : string) :
  forallb in_alphabet (list_byte_of_string payload) = true ->
  (String.length payload mod 4 <> 0)%nat ->
  decode_vmess ("vmess://" ++ payload)%string =
  Raise (ValueError (msg_parse BinasciiError)).
Proof.
  intros Halpha Hlen. rewrite decode_vmess_scheme. unfold decode_content.
  destruct (b64decode payload) as [raw|e] eqn:E.
  - elim Hlen. apply (b64decode_alphabet_text payload Halpha). now exists raw.
  - cbn [bind]. unfold b64decode, a2b_base64 in E.
    assert (Ha : forallb is_ascii (list_byte_of_string payload) = true).
    { rewrite forallb_forall in *. intros c Hc. now apply alphabet_char, Halpha. }
    rewrite Ha in E. apply a2b_loop_raises in E. now subst.
Qed.

Lemma decode_vmess_rejects_incomplete_group_example :
  decode_vmess "vmess://eyJ9e" = Raise (ValueError (msg_parse BinasciiError)).
Proof.
  apply (decode_vmess_rejects_incomplete_group "eyJ9e").
  - reflexivity.
  - discriminate.
Defined.

(** ** [generate_clash_config] *)

Lemma of_uint_acc_value (d : Decimal.uint) :
  forall acc : positive, Zpos (Pos.of_uint_acc d acc) = uint_value (Zpos acc) d.
Proof.
  induction d; intros acc; cbn [Pos.of_uint_acc uint_value];
    [reflexivity | rewrite IHd; f_equal; lia ..].
Qed.

Lemma of_uint_value (d : Decimal.uint) : Z.of_uint d = uint_value 0 d.
Proof.
  unfold Z.of_uint.
  induction d; cbn [Pos.of_uint uint_value Z.of_N]; trivial;
    change (10 * 0 + _)%Z with (Zpos 1) || idtac;
    apply of_uint_acc_value.
Qed.

Lemma int_digits_decimal (d : Decimal.uint) :
  forall acc prev,
    int_digits acc prev (list_ascii_of_string (DecimalString.NilEmpty.string_of_uint d)) =
    match d with
    | Decimal.Nil => if prev then Some acc else None
    | _ => Some (uint_value acc d)
    end.
Proof.
  induction d; intros acc prev; [reflexivity | ..];
    cbn [DecimalString.NilEmpty.string_of_uint list_ascii_of_string int_digits];
    change (is_digit _) with true; cbv iota;
    rewrite IHd; cbn [uint_value]; now destruct d.
Qed.

Lemma digits_no_space (d : Decimal.uint) :
  forallb (fun c => negb (is_space c))
    (list_ascii_of_string (DecimalString.NilEmpty.string_of_uint d)) = true.
Proof. induction d; cbn; trivial. Qed.

Lemma lstrip_no_space (l : list ascii) :
  forallb (fun c => negb (is_space c)) l = true -> lstrip l = l.
Proof.
  destruct l as [|c t]; [reflexivity|]. cbn [forallb lstrip].
  intros H. apply andb_true_iff in H as [H _].
  now destruct (is_space c).
Qed.

Lemma rstrip_no_space (l : list ascii) :
  forallb (fun c => negb (is_space c)) l = true -> rstrip l = l.
Proof.
  induction l as [|c t IH]; [reflexivity|]. cbn [forallb rstrip].
  intros H. apply andb_true_iff in H as [Hc Ht]. rewrite (IH Ht).
  destruct t; [|reflexivity]. now destruct (is_space c).
Qed.

Lemma first_digit_char (d : Decimal.uint) :
  d <> Decimal.Nil ->
  exists c t,
    list_ascii_of_string (DecimalString.NilEmpty.string_of_uint d) = c :: t
    /\ Ascii.eqb c "-"%char = false /\ Ascii.eqb c "+"%char = false.
Proof.
  destruct d; [intros H; now elim H | ..]; intros _; cbn; eauto.
Qed.

Lemma int_of_str_uint (d : Decimal.uint) :
  d <> Decimal.Nil ->
  int_of_str (DecimalString.NilEmpty.string_of_uint d) = Some (Z.of_uint d).
Proof.
  intros Hd. unfold int_of_str.
  rewrite lstrip_no_space, rstrip_no_space by apply digits_no_space.
  destruct (first_digit_char d Hd) as (c & t & E & Hm & Hp).
  pose proof (int_digits_decimal d 0 false) as K. rewrite E in *.
  rewrite Hm, Hp, K, of_uint_value. now destruct d.
Qed.

(** [int] reads back the decimal text of every integer. *)
Lemma int_of_str_decimal (z : Z) : int_of_str (decimal z) = Some z.
Proof.
  unfold decimal.
  rewrite <- (DecimalZ.of_to z) at 2.
  destruct (Z.to_int z) as [d|d] eqn:E; cbn [DecimalString.NilEmpty.string_of_int Z.of_int].
  - apply int_of_str_uint.
    destruct z; cbn in E; try discriminate E; injection E as <-;
      [discriminate | apply DecimalPos.Unsigned.to_uint_nonnil].
  - assert (Hd : d <> Decimal.Nil).
    { destruct z; cbn in E; try discriminate. injection E as <-.
      apply DecimalPos.Unsigned.to_uint_nonnil. }
    unfold int_of_str. cbn [list_ascii_of_string lstrip].
    change (is_space "-") with false. cbv iota.
    assert (Hs : forallb (fun c => negb (is_space c))
                   ("-"%char :: list_ascii_of_string (DecimalString.NilEmpty.string_of_uint d)) = true).
    { cbn [forallb]. now rewrite digits_no_space. }
    rewrite (rstrip_no_space _ Hs).
    change (Ascii.eqb "-" "-") with true. cbv iota.
    rewrite (int_digits_decimal d 0 false), of_uint_value.
    now destruct d.
Qed.


(** X5.  The fields of the produced entry, for every record on which
    the mapper succeeds: name, server, uuid and network are the values of
    [ps], [add], [id] and [net] or their defaults, port and alterId are
    the integers of [port] and [aid], tls is true exactly when [tls] is
    the string "tls", type, udp and skip-cert-verify are fixed; the keys
    come in the order of the literal, with [ws-opts] last when present. *)
Theorem mapper_field_table (d : dict) (doc : value) :
  generate_clash_config (VDict d) = Ok doc ->
  exists proxy port alterId,
    doc_proxies doc = [proxy]
    /\ int (get_or d "port" (VInt 443)) = Ok port
    /\ int (get_or d "aid" (VInt 0)) = Ok alterId
    /\ field "name" proxy = Some (get_or d "ps" (VStr "Vmess节点"))
    /\ field "type" proxy = Some (VStr "vmess")
    /\ field "server" proxy = Some (get_or d "add" (VStr EmptyString))
    /\ field "port" proxy = Some (VInt port)
    /\ field "uuid" proxy = Some (get_or d "id" (VStr EmptyString))
    /\ field "alterId" proxy = Some (VInt alterId)
    /\ field "udp" proxy = Some (VBool true)
    /\ (field "tls" proxy = Some (VBool true)
        <-> get_or d "tls" (VStr EmptyString) = VStr "tls")
    /\ (field "tls" proxy = Some (VBool false)
        <-> get_or d "tls" (VStr EmptyString) <> VStr "tls")
    /\ field "skip-cert-verify" proxy = Some (VBool true)
    /\ field "network" proxy = Some (get_or d "net" (VStr "tcp"))
    /\ keys proxy =
       ["name"; "type"; "server"; "port"; "uuid"; "alterId"; "cipher"; "udp";
        "tls"; "skip-cert-verify"; "network"]
       ++ (if eq_str (get_or d "net" (VStr "tcp")) "ws" then ["ws-opts"] else []).
Proof.
  intros H. apply generate_clash_config_ok in H
    as (d' & lowered & port & alterId & [= <-] & _ & Hp & Ha & ->).
  eexists _, port, alterId. unfold document_of.
  rewrite doc_proxies_document.
  split; [reflexivity|]. split; [exact Hp|]. split; [exact Ha|].
  unfold proxy_entry, keys.
  repeat (split; [reflexivity|]).
  split; [|split].
  - cbn. rewrite <- eq_str_true_iff.
    destruct (eq_str _ "tls"); split; congruence.
  - cbn. rewrite <- eq_str_true_iff.
    destruct (eq_str _ "tls"); split; congruence.
  - split; [reflexivity|]. split; [reflexivity|].
    now destruct (eq_str (get_or d "net" (VStr "tcp")) "ws").
Qed.

Lemma mapper_field_table_example :
  exists proxy port alterId,
    doc_proxies (document_of [("tls", VStr "TLS")] 443 0 "auto") = [proxy]
    /\ int (get_or [("tls", VStr "TLS")] "port" (VInt 443)) = Ok port
    /\ int (get_or [("tls", VStr "TLS")] "aid" (VInt 0)) = Ok alterId
    /\ field "name" proxy = Some (get_or [("tls", VStr "TLS")] "ps" (VStr "Vmess节点"))
    /\ field "type" proxy = Some (VStr "vmess")
    /\ field "server" proxy = Some (get_or [("tls", VStr "TLS")] "add" (VStr EmptyString))
    /\ field "port" proxy = Some (VInt port)
    /\ field "uuid" proxy = Some (get_or [("tls", VStr "TLS")] "id" (VStr EmptyString))
    /\ field "alterId" proxy = Some (VInt alterId)
    /\ field "udp" proxy = Some (VBool true)
    /\ (field "tls" proxy = Some (VBool true)
        <-> get_or [("tls", VStr "TLS")] "tls" (VStr EmptyString) = VStr "tls")
    /\ (field "tls" proxy = Some (VBool false)
        <-> get_or [("tls", VStr "TLS")] "tls" (VStr EmptyString) <> VStr "tls")
    /\ field "skip-cert-verify" proxy = Some (VBool true)
    /\ field "network" proxy = Some (get_or [("tls", VStr "TLS")] "net" (VStr "tcp"))
    /\ keys proxy =
       ["name"; "type"; "server"; "port"; "uuid"; "alterId"; "cipher"; "udp";
        "tls"; "skip-cert-verify"; "network"]
       ++ (if eq_str (get_or [("tls", VStr "TLS")] "net" (VStr "tcp")) "ws"
           then ["ws-opts"] else []).
Proof.
  apply (mapper_field_table [("tls", VStr "TLS")]). reflexivity.
Defined.

(** X6.  The settings of the document do not depend on the record: the
    ports 7890 and 7891, LAN access, mode, log level, controller address,
    the single rule, the health-check URL and interval of the automatic
    group, and the order of the keys. *)
Theorem mapper_fixed_settings (vmess_config doc : value) :
  generate_clash_config vmess_config = Ok doc ->
  keys doc =
    ["port"; "socks-port"; "allow-lan"; "mode"; "log-level";
     "external-controller"; "proxies"; "proxy-groups"; "rules"]
  /\ field "port" doc = Some (VInt 7890)
  /\ field "socks-port" doc = Some (VInt 7891)
  /\ field "allow-lan" doc = Some (VBool true)
  /\ field "mode" doc = Some (VStr "rule")
  /\ field "log-level" doc = Some (VStr "info")
  /\ field "external-controller" doc = Some (VStr "127.0.0.1:9090")
  /\ field "rules" doc = Some (VList [VStr "MATCH,PROXY"])
  /\ exists manual automatic,
       doc_groups doc = [manual; automatic]
       /\ keys manual = ["name"; "type"; "proxies"]
       /\ keys automatic = ["name"; "type"; "url"; "interval"; "proxies"]
       /\ field "url" automatic = Some (VStr "http://www.gstatic.com/generate_204")
       /\ field "interval" automatic = Some (VInt 300).
Proof.
  intros H. apply generate_clash_config_ok in H
    as (d & lowered & port & alterId & _ & _ & _ & _ & ->).
  repeat (split; [reflexivity|]).
  eexists _, _. repeat split.
Qed.

Lemma mapper_fixed_settings_example :
  keys (document_of [] 443 0 "auto") =
    ["port"; "socks-port"; "allow-lan"; "mode"; "log-level";
     "external-controller"; "proxies"; "proxy-groups"; "rules"]
  /\ field "port" (document_of [] 443 0 "auto") = Some (VInt 7890)
  /\ field "socks-port" (document_of [] 443 0 "auto") = Some (VInt 7891)
  /\ field "allow-lan" (document_of [] 443 0 "auto") = Some (VBool true)
  /\ field "mode" (document_of [] 443 0 "auto") = Some (VStr "rule")
  /\ field "log-level" (document_of [] 443 0 "auto") = Some (VStr "info")
  /\ field "external-controller" (document_of [] 443 0 "auto")
     = Some (VStr "127.0.0.1:9090")
  /\ field "rules" (document_of [] 443 0 "auto") = Some (VList [VStr "MATCH,PROXY"])
  /\ exists manual automatic,
       doc_groups (document_of [] 443 0 "auto") = [manual; automatic]
       /\ keys manual = ["name"; "type"; "proxies"]
       /\ keys automatic = ["name"; "type"; "url"; "interval"; "proxies"]
       /\ field "url" automatic = Some (VStr "http://www.gstatic.com/generate_204")
       /\ field "interval" automatic = Some (VInt 300).
Proof.
  apply (mapper_fixed_settings (VDict [])). reflexivity.
Defined.

(** X7.  The cipher of a produced entry is a string, and never a
    spelling of "zero". *)
Theorem mapper_cipher_is_never_zero (vmess_config doc : value) :
  generate_clash_config vmess_config = Ok doc ->
  exists proxy s,
    doc_proxies doc = [proxy]
    /\ field "cipher" proxy = Some (VStr s)
    /\ str_lower s <> "zero".
Proof.
  intros H. apply generate_clash_config_ok in H
    as (d & lowered & port & alterId & _ & Hl & _ & _ & ->).
  unfold document_of. setoid_rewrite doc_proxies_document.
  destruct (resolved_security d) as [| | | |s0| |]; try discriminate Hl.
  injection Hl as <-. unfold cipher_of.
  destruct (String.eqb (str_lower s0) "zero") eqn:E.
  - eexists _, "auto". repeat split. discriminate.
  - eexists _, s0. repeat split. now apply String.eqb_neq.
Qed.

Lemma mapper_cipher_is_never_zero_example :
  exists proxy s,
    doc_proxies (document_of [("scy", VStr "Zero")] 443 0 "zero") = [proxy]
    /\ field "cipher" proxy = Some (VStr s)
    /\ str_lower s <> "zero".
Proof.
  apply (mapper_cipher_is_never_zero (VDict [("scy", VStr "Zero")])). reflexivity.
Defined.

(** *** Reading and writing a key of a record *)

Lemma dict_lookup_set_same {A : Type} (k : string) (v : A) (d : list (string * A)) :
  dict_lookup k (dict_set k v d) = Some v.
Proof.
  induction d as [|[k' v'] t IH]; cbn [dict_set dict_lookup].
  - now rewrite String.eqb_refl.
  - destruct (String.eqb k' k) eqn:E; cbn [dict_lookup]; now rewrite E.
Qed.

Lemma dict_lookup_set_other {A : Type} (k k' : string) (v : A) (d : list (string * A)) :
  k <> k' -> dict_lookup k' (dict_set k v d) = dict_lookup k' d.
Proof.
  intros Hk. induction d as [|[k0 v0] t IH]; cbn [dict_set dict_lookup].
  - destruct (String.eqb k k') eqn:E; [|reflexivity].
    apply String.eqb_eq in E. now elim Hk.
  - destruct (String.eqb k0 k) eqn:E; cbn [dict_lookup].
    + apply String.eqb_eq in E. subst k0.
      destruct (String.eqb k k') eqn:E'; [|reflexivity].
      apply String.eqb_eq in E'. now elim Hk.
    + now rewrite IH.
Qed.

(** Two records that resolve the same cipher value and give the other
    nine keys the same values are mapped alike. *)
Lemma mapper_same_reads (d1 d2 : dict) :
  resolved_security d1 = resolved_security d2 ->
  (forall k,
      In k ["ps"; "add"; "port"; "id"; "aid"; "tls"; "net"; "path"; "host"] ->
      dict_lookup k d1 = dict_lookup k d2) ->
  generate_clash_config (VDict d1) = generate_clash_config (VDict d2).
Proof.
  intros Hsec Hagree.
  assert (G : forall k v,
             In k ["ps"; "add"; "port"; "id"; "aid"; "tls"; "net"; "path"; "host"] ->
             get_or d1 k v = get_or d2 k v).
  { intros k v Hk. apply get_or_agree, Hagree, Hk. }
  rewrite !generate_clash_config_dict.
  unfold document_of, proxy_entry, ws_opts. rewrite Hsec.
  rewrite (G "ps"), (G "add"), (G "port"), (G "id"), (G "aid"), (G "tls"),
    (G "net"), (G "path"), (G "host");
    (reflexivity || (cbn; tauto)).
Qed.

(** X8.  When the record has a true value under [scy], the key
    [security] is not read: setting it to any value leaves the result of
    the mapper as it is. *)
Theorem mapper_security_unread_when_scy_set (d : dict) (scy v : value) :
  dict_lookup "scy" d = Some scy -> truthy scy = true ->
  generate_clash_config (VDict (dict_set "security" v d)) =
  generate_clash_config (VDict d).
Proof.
  intros Hscy Ht. apply mapper_same_reads.
  - unfold resolved_security, get_or.
    rewrite dict_lookup_set_other by discriminate. now rewrite Hscy, Ht.
  - intros k Hk. apply dict_lookup_set_other.
    cbn in Hk. intuition (subst; discriminate).
Qed.

Lemma mapper_security_unread_when_scy_set_example :
  generate_clash_config
    (VDict (dict_set "security" (VInt 7) [("scy", VStr "aes-128-gcm")])) =
  generate_clash_config (VDict [("scy", VStr "aes-128-gcm")]).
Proof.
  apply (mapper_security_unread_when_scy_set
           [("scy", VStr "aes-128-gcm")] (VStr "aes-128-gcm") (VInt 7));
    reflexivity.
Defined.

Lemma int_raises (v : value) (e : exception) :
  int v = Raise e ->
  e = TypeError \/ e = OverflowError
  \/ e = ValueError msg_int_literal \/ e = ValueError msg_int_nan.
Proof.
  destruct v as [| | |f|s| |]; cbn [int]; try discriminate;
    try (intros [= <-]; tauto).
  - destruct f; cbn; try discriminate; intros [= <-]; tauto.
  - destruct (int_of_str s); [discriminate|]. intros [= <-]. tauto.
Qed.

(** X9.  The ways the mapper fails on a record: with [AttributeError]
    when the resolved cipher is not a string, or with the error of the
    integer coercion of [port] or of [aid]; it raises no [KeyError] and
    no [IndexError], the updates of the document literal always find
    their place. *)
Theorem mapper_failure_kinds (d : dict) (e : exception) :
  generate_clash_config (VDict d) = Raise e ->
  ((e = AttributeError /\ forall s, resolved_security d <> VStr s)
   \/ int (get_or d "port" (VInt 443)) = Raise e
   \/ int (get_or d "aid" (VInt 0)) = Raise e)
  /\ (e = AttributeError \/ e = TypeError \/ e = OverflowError
      \/ e = ValueError msg_int_literal \/ e = ValueError msg_int_nan).
Proof.
  rewrite generate_clash_config_dict.
  destruct (lower (resolved_security d)) as [lowered|e1] eqn:El; cbn [bind].
  - destruct (int (get_or d "port" (VInt 443))) as [port|e2] eqn:Ep; cbn [bind].
    + destruct (int (get_or d "aid" (VInt 0))) as [alterId|e3] eqn:Ea; cbn [bind];
        [discriminate|].
      intros [= <-]. split; [tauto|]. apply int_raises in Ea. tauto.
    + intros [= <-]. split; [tauto|]. apply int_raises in Ep. tauto.
  - intros [= <-].
    assert (e1 = AttributeError /\ forall s, resolved_security d <> VStr s) as [-> Hs].
    { destruct (resolved_security d); cbn in El; try discriminate El;
        injection El as <-; split; trivial; discriminate. }
    split; [left; now split | now left].
Qed.

Lemma mapper_failure_kinds_example :
  ((TypeError = AttributeError
    /\ forall s, resolved_security [("port", VNone)] <> VStr s)
   \/ int (get_or [("port", VNone)] "port" (VInt 443)) = Raise TypeError
   \/ int (get_or [("port", VNone)] "aid" (VInt 0)) = Raise TypeError)
  /\ (TypeError = AttributeError \/ TypeError = TypeError
      \/ TypeError = OverflowError
      \/ TypeError = ValueError msg_int_literal
      \/ TypeError = ValueError msg_int_nan).
Proof.
  apply (mapper_failure_kinds [("port", VNone)] TypeError). reflexivity.
Defined.

(** X10.  When the payload is JSON whose top-level value is not an
    object, [decode_vmess] returns that value and the mapper fails on it
    with [AttributeError]: the conversion produces no document and
    [vmess_to_clash] returns [False]. *)
Theorem convert_rejects_non_object (vmess_link : string) (v : value) :
  decode_vmess vmess_link = Ok v -> (forall d, v <> VDict d) ->
  convert vmess_link = Raise AttributeError
  /\ vmess_to_clash vmess_link = false.
Proof.
  intros Hd Hv. unfold vmess_to_clash, convert. rewrite Hd. cbn [bind].
  now rewrite (generate_clash_config_not_dict v Hv).
Qed.

Lemma convert_rejects_non_object_example :
  convert "vmess://WzEsMl0=" = Raise AttributeError
  /\ vmess_to_clash "vmess://WzEsMl0=" = false.
Proof.
  apply (convert_rejects_non_object "vmess://WzEsMl0=" (VList [VInt 1; VInt 2])).
  - reflexivity.
  - discriminate.
Defined.

(** X11.  A port or an alter-id written as the decimal text of an
    integer gives the same field as that integer itself. *)
Theorem mapper_reads_decimal_text (d : dict) (doc : value) :
  generate_clash_config (VDict d) = Ok doc ->
  exists proxy,
    doc_proxies doc = [proxy]
    /\ (forall z, dict_lookup "port" d = Some (VStr (decimal z)) ->
                  field "port" proxy = Some (VInt z))
    /\ (forall z, dict_lookup "port" d = Some (VInt z) ->
                  field "port" proxy = Some (VInt z))
    /\ (forall z, dict_lookup "aid" d = Some (VStr (decimal z)) ->
                  field "alterId" proxy = Some (VInt z))
    /\ (forall z, dict_lookup "aid" d = Some (VInt z) ->
                  field "alterId" proxy = Some (VInt z)).
Proof.
  intros H. apply generate_clash_config_ok in H
    as (d' & lowered & port & alterId & [= <-] & _ & Hp & Ha & ->).
  eexists. unfold document_of. rewrite doc_proxies_document.
  split; [reflexivity|].
  change (field "port" (VDict (proxy_entry d port alterId
                                 (cipher_of (resolved_security d) lowered))))
    with (Some (VInt port)).
  change (field "alterId" (VDict (proxy_entry d port alterId
                                    (cipher_of (resolved_security d) lowered))))
    with (Some (VInt alterId)).
  unfold get_or in Hp, Ha.
  repeat split; intros z Hz; rewrite Hz in *; cbn [int] in *;
    rewrite ?int_of_str_decimal in *; congruence.
Qed.

Lemma mapper_reads_decimal_text_example :
  exists proxy,
    doc_proxies (document_of [("port", VStr "8443")] 8443 0 "auto") = [proxy]
    /\ (forall z, dict_lookup "port" [("port", VStr "8443")] = Some (VStr (decimal z)) ->
                  field "port" proxy = Some (VInt z))
    /\ (forall z, dict_lookup "port" [("port", VStr "8443")] = Some (VInt z) ->
                  field "port" proxy = Some (VInt z))
    /\ (forall z, dict_lookup "aid" [("port", VStr "8443")] = Some (VStr (decimal z)) ->
                  field "alterId" proxy = Some (VInt z))
    /\ (forall z, dict_lookup "aid" [("port", VStr "8443")] = Some (VInt z) ->
                  field "alterId" proxy = Some (VInt z)).
Proof.
  apply (mapper_reads_decimal_text [("port", VStr "8443")]). reflexivity.
Defined.

(** X12.  [vmess_to_clash] succeeds (apart from the file system) exactly
    on the links that have the scheme, whose payload decodes to a JSON
    object, and whose record has a string as resolved cipher and
    integer-coercible values for [port] and [aid]. *)
Theorem vmess_to_clash_true_iff (vmess_link : string) :
  vmess_to_clash vmess_link = true <->
  exists payload d,
    vmess_link = ("vmess://" ++ payload)%string
    /\ decode_content payload = Ok (VDict d)
    /\ (exists s, resolved_security d = VStr s)
    /\ succeeds (int (get_or d "port" (VInt 443)))
    /\ succeeds (int (get_or d "aid" (VInt 0))).
Proof.
  unfold vmess_to_clash, convert. split.
  - destruct (decode_vmess vmess_link) as [v|e] eqn:Ed; cbn [bind]; [|discriminate].
    destruct (generate_clash_config v) as [doc|e] eqn:Eg; [|discriminate].
    intros _.
    pose proof (generate_clash_config_ok _ _ Eg) as (d & _ & _ & _ & -> & _).
    unfold decode_vmess in Ed.
    destruct (String.prefix "vmess://" vmess_link) eqn:Ep; [|discriminate Ed].
    apply prefix_iff_append in Ep as [payload ->].
    exists payload, d. split; [reflexivity|].
    pose proof (decode_vmess_scheme payload) as K.
    unfold decode_vmess in K. rewrite (proj2 (prefix_iff_append _ _)) in K
      by now exists payload.
    cbn [negb] in *. rewrite Ed in K.
    destruct (decode_content payload) as [c|]; [|discriminate K].
    injection K as <-. split; [reflexivity|].
    apply generate_clash_config_succeeds_iff. now exists doc.
  - intros (payload & d & -> & Hc & Hok).
    rewrite decode_vmess_scheme, Hc. cbn [bind].
    apply generate_clash_config_succeeds_iff in Hok as [doc ->]. reflexivity.
Qed.

(** ** [vmess_to_clash] and [main] *)


(** The four ways a run can go. *)
Lemma vmess_to_clash_run_cases (can_open : string -> bool)
  (can_dump : string -> value -> bool) (vmess_link output_file : string) :
  (exists e,
      convert vmess_link = Raise e
      /\ vmess_to_clash_run can_open can_dump vmess_link output_file =
         (false, [PrintFailed (Conversion e)]))
  \/ exists doc,
       convert vmess_link = Ok doc
       /\ (vmess_to_clash_run can_open can_dump vmess_link output_file =
           (false, [PrintFailed OpenFailed])
           \/ vmess_to_clash_run can_open can_dump vmess_link output_file =
              (false, [Opened output_file; PrintFailed DumpFailed])
           \/ vmess_to_clash_run can_open can_dump vmess_link output_file =
              (true, [Opened output_file; Dumped output_file doc;
                      PrintSaved output_file])).
Proof.
  unfold vmess_to_clash_run, convert.
  destruct (decode_vmess vmess_link) as [cfg|e]; cbn [bind];
    [|left; now exists e].
  destruct (generate_clash_config cfg) as [doc|e]; [|left; now exists e].
  right. exists doc. split; [reflexivity|].
  destruct (can_open output_file); [|now left].
  destruct (can_dump output_file doc); auto.
Qed.



Lemma dumped_by_run (can_open : string -> bool)
  (can_dump : string -> value -> bool) (vmess_link output_file path : string)
  (doc : value) :
  In (Dumped path doc)
    (snd (vmess_to_clash_run can_open can_dump vmess_link output_file)) ->
  path = output_file /\ convert vmess_link = Ok doc.
Proof.
  destruct (vmess_to_clash_run_cases can_open can_dump vmess_link output_file)
    as [(e & Hc & ->) | (doc' & Hc & [-> | [-> | ->]])];
    cbn [snd In]; intros H;
    repeat (destruct H as [H | H]; try discriminate H); try (now destruct H).
  injection H as <- <-. now split.
Qed.

Lemma no_prompt_in_run (can_open : string -> bool)
  (can_dump : string -> value -> bool) (vmess_link output_file text : string) :
  ~ In (Prompt text)
      (snd (vmess_to_clash_run can_open can_dump vmess_link output_file)).
Proof.
  destruct (vmess_to_clash_run_cases can_open can_dump vmess_link output_file)
    as [(e & Hc & ->) | (doc' & Hc & [-> | [-> | ->]])];
    cbn [snd In]; intros H;
    repeat (destruct H as [H | H]; try discriminate H); now destruct H.
Qed.

(** X15.  [main] returns unless [input] runs out of lines, which
    happens only without a link on the command line and with fewer than
    two lines to read; with a link on the command line it never prompts;
    and the only document it writes is the conversion of the selected
    link ([argv[1]], else the first line), to the selected file
    ([argv[2]], else "config.yaml"; interactively the second line, or
    "config.yaml" when that line is empty). *)
Theorem main_effects (can_open : string -> bool)
  (can_dump : string -> value -> bool) (argv stdin : list string) :
  (snd (main can_open can_dump argv stdin) = true
   <-> (2 <= List.length argv \/ 2 <= List.length stdin)%nat)
  /\ ((2 <= List.length argv)%nat ->
      forall text, ~ In (Prompt text) (fst (main can_open can_dump argv stdin)))
  /\ forall path doc,
       In (Dumped path doc) (fst (main can_open can_dump argv stdin)) ->
       exists vmess_link,
         convert vmess_link = Ok doc
         /\ ((nth_error argv 1 = Some vmess_link
              /\ (nth_error argv 2 = Some path
                  \/ (List.length argv = 2%nat /\ path = "config.yaml")))
             \/ ((List.length argv <= 1)%nat
                 /\ nth_error stdin 0 = Some vmess_link
                 /\ ((nth_error stdin 1 = Some path /\ path <> EmptyString)
                     \/ (nth_error stdin 1 = Some EmptyString
                         /\ path = "config.yaml")))).
Proof.
  destruct argv as [|prog [|vmess_link rest]].
  1, 2: destruct stdin as [|l1 [|answer more]]; cbn [main fst snd List.length];
    (split; [split; [try discriminate; intros _; right; lia
                    | try (intros [K | K]; cbn in K; lia); reflexivity]|]);
    (split; [intros K; cbn in K; lia|]); intros path doc H;
    try (cbn [In] in H; repeat (destruct H as [H | H]; try discriminate H);
         now destruct H).
  3: { cbn [main fst snd List.length].
       split; [split; [intros _; left; lia | reflexivity]|].
       split; [intros _ text; apply no_prompt_in_run|].
       intros path doc H. apply dumped_by_run in H as [-> Hc].
       exists vmess_link. split; [exact Hc|]. left. split; [reflexivity|].
       destruct rest as [|out more]; [right; now split | left; reflexivity]. }
  all: cbn [In] in H;
    repeat (destruct H as [H | H]; try discriminate H);
    apply dumped_by_run in H as [-> Hc];
    exists l1; (split; [exact Hc|]); right;
    (split; [cbn; lia|]); (split; [reflexivity|]);
    cbn [nth_error];
    destruct (String.eqb answer EmptyString) eqn:E;
    [ apply String.eqb_eq in E; subst answer; right; now split
    | apply String.eqb_neq in E; left; now split ].
Qed.
